(** * Typed exceptions layered directly on the stack unwinder

    A model of [main.cpp]: the exception envelope ([base_exception],
    [wrapped_exception<T>]), the raise side ([my_throw<T>] and the cleanup
    closure it installs), the catch side ([my_catch]) and the handler of the
    demonstration driver ([main]).

    The program talks to three collaborators that live outside the file: the
    unwinder ([_Unwind_RaiseException]), the C++ runtime's per-thread
    bookkeeping ([__cxa_get_globals_fast]) and the allocator ([new] and
    [delete]).  They appear here as an explicit program state together with
    an oracle record; every function of the file is a computation in a small
    state-and-outcome monad that also logs the memory accesses it performs
    and the calls of the raise primitive. *)

From Stdlib Require Import ZArith Lia.
From stdpp Require Import base option gmap strings.

Open Scope Z_scope.

(** ** Addresses and the platform ABI *)

(** Byte addresses.  Pointer arithmetic of the source stays inside one
    object, so it is plain integer arithmetic; [nullptr] is address 0. *)
Definition addr : Type := Z.
Definition nullptr : addr := 0.

(** What the program takes from the platform headers: the size and alignment
    of [_Unwind_Exception] (from [<unwind.h>], used by the pointer step
    [static_cast<_Unwind_Exception*>(exception_end) - 1]), the size of a data
    pointer, and the size of the runtime's own [__cxa_exception] record, whose
    last field is the unwind header. *)
Record abi : Type := {
  sizeof_Unwind_Exception : Z;
  alignof_Unwind_Exception : Z;
  sizeof_pointer : Z;
  sizeof_cxa_exception : Z
}.

(** The 64-bit Itanium C++ ABI with libc++abi, the platform the source was
    written for. *)
Definition itanium_x86_64 : abi :=
  {| sizeof_Unwind_Exception := 32;
     alignof_Unwind_Exception := 16;
     sizeof_pointer := 8;
     sizeof_cxa_exception := 128 |}.

(** [static const uint64_t my_exception_class = 0x0123456789ABCDEFull;] *)
Definition my_exception_class : Z := 0x0123456789ABCDEF.

(** [static const size_t sizeof_libcxx_cxa_exception = 0x80;] (local to
    [my_catch]). *)
Definition sizeof_libcxx_cxa_exception : Z := 0x80.

(** [_Unwind_Reason_Code] of [<unwind.h>]. *)
Inductive _Unwind_Reason_Code : Type :=
| _URC_NO_REASON
| _URC_FOREIGN_EXCEPTION_CAUGHT
| _URC_FATAL_PHASE2_ERROR
| _URC_FATAL_PHASE1_ERROR
| _URC_NORMAL_STOP
| _URC_END_OF_STACK
| _URC_HANDLER_FOUND
| _URC_INSTALL_CONTEXT
| _URC_CONTINUE_UNWIND.

(** The integer printed by [printf("... (reason = %d)", fail_reason)]. *)
Definition reason_value (r : _Unwind_Reason_Code) : Z :=
  match r with
  | _URC_NO_REASON => 0
  | _URC_FOREIGN_EXCEPTION_CAUGHT => 1
  | _URC_FATAL_PHASE2_ERROR => 2
  | _URC_FATAL_PHASE1_ERROR => 3
  | _URC_NORMAL_STOP => 4
  | _URC_END_OF_STACK => 5
  | _URC_HANDLER_FOUND => 6
  | _URC_INSTALL_CONTEXT => 7
  | _URC_CONTINUE_UNWIND => 8
  end.

(** ** Struct layout

    Non-static data members are laid out in declaration order, each at the
    next offset that satisfies its alignment; a non-virtual base class
    subobject is laid out like a leading member. *)
Record member : Type := Member { m_name : string; m_size : Z; m_align : Z }.

Definition align_up (n a : Z) : Z :=
  match n mod a with
  | 0 => n
  | r => n + a - r
  end.

Fixpoint offsetof_from (start : Z) (ms : list member) (name : string) : option Z :=
  match ms with
  | [] => None
  | m :: rest =>
      let off := align_up start (m_align m) in
      if String.eqb (m_name m) name then Some off
      else offsetof_from (off + m_size m) rest name
  end.

Definition offsetof (ms : list member) (name : string) : Z :=
  default 0 (offsetof_from 0 ms name).

(** [struct base_exception { _Unwind_Exception header{}; const std::type_info* ty; };] *)
Definition base_exception_members (a : abi) : list member :=
  [ Member "header" (sizeof_Unwind_Exception a) (alignof_Unwind_Exception a);
    Member "ty" (sizeof_pointer a) (sizeof_pointer a) ].

Definition sizeof_base_exception (a : abi) : Z :=
  align_up (offsetof (base_exception_members a) "ty" + sizeof_pointer a)
           (alignof_Unwind_Exception a).

(** [template<class T> struct wrapped_exception : base_exception { T body; };]
    for a payload of the given size and alignment. *)
Definition wrapped_exception_members (a : abi) (sizeof_T alignof_T : Z) : list member :=
  [ Member "base_exception" (sizeof_base_exception a) (alignof_Unwind_Exception a);
    Member "body" sizeof_T alignof_T ].

(** ** Payload types and type identification *)

(** The payload types [T] that [my_throw<T>] is instantiated at.  [carrier T]
    is the set of values of [T], [ctor_args T] what its constructors accept
    ([Args&&... args]) and [construct T] the constructor call
    [T(std::forward<Args>(args)...)].  Constructors and destructors of
    payloads are pure, as those of [test_exception] are.  [unqualified T] is
    [T] without a reference and without top-level [const] and [volatile]. *)
Class Payloads : Type := {
  ptype : Type;
  ptype_eq_dec :: EqDecision ptype;
  unqualified : ptype -> ptype;
  carrier : ptype -> Type;
  ctor_args : ptype -> Type;
  construct : forall T : ptype, ctor_args T -> carrier T;
  sizeof_payload : ptype -> Z;
  alignof_payload : ptype -> Z
}.

(** [std::type_info].  A [type_info] object is known by the type it
    describes, and [operator==] holds of two of them exactly when they
    describe the same type.  The field [ty] is a [const std::type_info*];
    the program only ever dereferences it to compare. *)
Definition type_info {P : Payloads} : Type := ptype.

(** [typeid(T)] for a type-id [T]: the [type_info] describing [T] with a
    reference and the top-level cv-qualifiers ignored. *)
Definition typeid {P : Payloads} (T : ptype) : type_info := unqualified T.

(** [*x == *y] on [const std::type_info*]. *)
Definition type_info_eq {P : Payloads} (x y : type_info) : bool :=
  bool_decide (x = y).

Section Model.

Context {P : Payloads}.

(** ** The exception envelope *)

(** A value of [_Unwind_Exception_Cleanup_Fn]: null, the closure-free lambda
    of the instance [my_throw<T>], or a routine of another subsystem. *)
Inductive cleanup_fn : Type :=
| fn_null
| fn_my_throw_cleanup (T : ptype)
| fn_foreign (code : addr).

(** [_Unwind_Exception] of [<unwind.h>] (Itanium base ABI, level I). *)
Record _Unwind_Exception : Type := {
  exception_class : Z;
  exception_cleanup : cleanup_fn;
  private_1 : Z;
  private_2 : Z
}.

(** [_Unwind_Exception header{};] value-initialisation. *)
Definition zero_header : _Unwind_Exception :=
  {| exception_class := 0; exception_cleanup := fn_null;
     private_1 := 0; private_2 := 0 |}.

Definition set_exception_class (c : Z) (h : _Unwind_Exception) : _Unwind_Exception :=
  {| exception_class := c; exception_cleanup := exception_cleanup h;
     private_1 := private_1 h; private_2 := private_2 h |}.

Definition set_exception_cleanup (f : cleanup_fn) (h : _Unwind_Exception) : _Unwind_Exception :=
  {| exception_class := exception_class h; exception_cleanup := f;
     private_1 := private_1 h; private_2 := private_2 h |}.

Record base_exception : Type := {
  header : _Unwind_Exception;
  ty : type_info
}.

(** [explicit base_exception(const std::type_info* ty) : ty(ty)
    { header.exception_class = my_exception_class; }] *)
Definition base_exception_ctor (t : type_info) : base_exception :=
  {| header := set_exception_class my_exception_class zero_header; ty := t |}.

Record wrapped_exception (T : ptype) : Type := {
  base : base_exception;
  body : carrier T
}.
Arguments base {T} _.
Arguments body {T} _.

(** [explicit wrapped_exception(Args&&... args) :
      base_exception(&typeid(T)), body(std::forward<Args>(args)...) { }] *)
Definition wrapped_exception_ctor (T : ptype) (args : ctor_args T) : wrapped_exception T :=
  {| base := base_exception_ctor (typeid T); body := construct T args |}.

(** [wrapped->header.exception_cleanup = f] on the stored object. *)
Definition with_cleanup {T : ptype} (f : cleanup_fn) (w : wrapped_exception T) : wrapped_exception T :=
  {| base := {| header := set_exception_cleanup f (header (base w)); ty := ty (base w) |};
     body := body w |}.

(** The tag invariant of the data model read literally: the tags recorded
    by construction compare equal exactly when the declared payload types
    are the same. *)
Definition tags_tell_declared_types_apart : Prop :=
  forall (T U : ptype) (args : ctor_args T) (args' : ctor_args U),
    type_info_eq (ty (base (wrapped_exception_ctor T args)))
                 (ty (base (wrapped_exception_ctor U args'))) = true
    <-> T = U.

(** ** Program state *)

(** The runtime's per-thread [__cxa_eh_globals]; [caughtExceptions] is its
    first member. *)
Record cxa_eh_globals : Type := {
  caughtExceptions : addr;
  uncaughtExceptions : Z
}.

(** What lives in memory, keyed by the address of the complete object: the
    thread's bookkeeping record, the envelopes allocated by [my_throw], and
    the exceptions of other subsystems, of which only the unwind header is
    known (they are keyed by the address of that header). *)
Inductive object : Type :=
| Obj_globals (g : cxa_eh_globals)
| Obj_wrapped (T : ptype) (w : wrapped_exception T)
| Obj_foreign (u : _Unwind_Exception).

(** Lines written to standard output by the [printf] calls. *)
Inductive log_line : Type :=
| Throwing (p : addr)
| Deleting (p : addr)
| Failed_to_throw (reason : Z)
| Success (what : string).

Record state : Type := {
  memory : gmap addr object;
  tls_globals : addr;
  stdout : list log_line
}.

Definition set_memory (m : gmap addr object) (s : state) : state :=
  {| memory := m; tls_globals := tls_globals s; stdout := stdout s |}.

Definition add_stdout (l : log_line) (s : state) : state :=
  {| memory := memory s; tls_globals := tls_globals s; stdout := stdout s ++ [l] |}.

(** A thread right after its first [__cxa_get_globals()], with the
    bookkeeping record at [g0]: nothing caught, nothing allocated, nothing
    printed. *)
Definition fresh_thread (g0 : addr) : state :=
  {| memory :=
       <[g0 := Obj_globals {| caughtExceptions := nullptr; uncaughtExceptions := 0 |}]> ∅;
     tls_globals := g0;
     stdout := [] |}.

(** Field offsets used by the pointer conversions of the source. *)
Definition offsetof_header (a : abi) : Z :=
  offsetof (base_exception_members a) "header".

Definition offsetof_base (a : abi) (T : ptype) : Z :=
  offsetof (wrapped_exception_members a (sizeof_payload T) (alignof_payload T))
           "base_exception".

(** [&wrapped->header] for [wrapped : wrapped_exception<T>*]. *)
Definition address_of_header (a : abi) (T : ptype) (wrapped : addr) : addr :=
  wrapped + offsetof_base a T + offsetof_header a.

(** The unwind header stored at address [h], if one is: the header of the
    envelope that contains [h] as its [header] member, or a foreign header. *)
Definition header_at (a : abi) (m : gmap addr object) (h : addr) : option _Unwind_Exception :=
  match m !! h with
  | Some (Obj_foreign u) => Some u
  | Some (Obj_wrapped T w) =>
      if decide (address_of_header a T h = h) then Some (header (base w)) else None
  | _ => None
  end.

(** The [base_exception] subobject at address [b]. *)
Definition base_at (a : abi) (m : gmap addr object) (b : addr) : option base_exception :=
  match m !! b with
  | Some (Obj_wrapped T w) =>
      if decide (b + offsetof_base a T = b) then Some (base w) else None
  | _ => None
  end.

(** The complete [wrapped_exception<T>] object at address [p]. *)
Definition wrapped_at (T : ptype) (m : gmap addr object) (p : addr) : option (wrapped_exception T) :=
  match m !! p with
  | Some (Obj_wrapped T' w) =>
      match decide (T' = T) with
      | left e => Some (eq_rect T' wrapped_exception w T e)
      | right _ => None
      end
  | _ => None
  end.

(** ** Outcomes, events and the monad *)

Inductive field : Type :=
| f_caughtExceptions
| f_exception_class
| f_exception_cleanup
| f_ty
| f_body.

(** What a call does to the world outside its locals: a load or store
    through pointer [p] of the named member, an allocation, a deallocation,
    or the call of the raise primitive on header [h]. *)
Inductive event : Type :=
| Read (p : addr) (f : field)
| Write (p : addr) (f : field)
| Alloc (p : addr)
| Free (p : addr)
| Raise (h : addr).

(** The events that are loads. *)
Definition is_read (e : event) : Prop := exists p f, e = Read p f.

(** How a call ends.  [Returns] is the only normal return. *)
Inductive outcome (A : Type) : Type :=
| Returns (a : A) (s : state)
| Unwinds (exc : addr) (s : state)
| Rethrows (s : state)
| Aborts (msg : string) (s : state)
| Terminates (s : state)
| BadAlloc (s : state)
| Undefined.
Arguments Returns {A} _ _.
Arguments Unwinds {A} _ _.
Arguments Rethrows {A} _.
Arguments Aborts {A} _ _.
Arguments Terminates {A} _.
Arguments BadAlloc {A} _.
Arguments Undefined {A}.

Definition M (A : Type) : Type := state -> outcome A * list event.

Definition ret {A : Type} (x : A) : M A := fun s => (Returns x s, []).

Definition bind {A B : Type} (c : M A) (k : A -> M B) : M B :=
  fun s =>
    match c s with
    | (Returns x s', t) => let (o, t') := k x s' in (o, t ++ t')
    | (Unwinds h s', t) => (Unwinds h s', t)
    | (Rethrows s', t) => (Rethrows s', t)
    | (Aborts msg s', t) => (Aborts msg s', t)
    | (Terminates s', t) => (Terminates s', t)
    | (BadAlloc s', t) => (BadAlloc s', t)
    | (Undefined, t) => (Undefined, t)
    end.

End Model.

Arguments base {P T} _.
Arguments body {P T} _.
Arguments with_cleanup {P T} _ _.
Arguments Returns {P A} _ _.
Arguments Unwinds {P A} _ _.
Arguments Rethrows {P A} _.
Arguments Aborts {P A} _ _.
Arguments Terminates {P A} _.
Arguments BadAlloc {P A} _.
Arguments Undefined {P A}.

Declare Scope cxx_scope.
Delimit Scope cxx_scope with cxx.
Notation "x <- c ;; k" := (bind c (fun x => k))
  (at level 100, c at next level, right associativity) : cxx_scope.
Notation "c ;; k" := (bind c (fun _ => k))
  (at level 100, right associativity) : cxx_scope.

Open Scope cxx_scope.

Section Program.

Context {P : Payloads}.

(** ** The collaborators *)

(** The external decisions the program cannot influence: where the runtime
    keeps a thread's bookkeeping record, the address [operator new] hands out
    ([None]: it throws [std::bad_alloc]), and whether
    [_Unwind_RaiseException] comes back ([Some code]: it returned that
    failure code; [None]: it found a handler and did not return). *)
Record runtime : Type := {
  eh_globals_storage : addr;
  operator_new : gmap addr object -> option addr;
  raise_returns : state -> addr -> option _Unwind_Reason_Code
}.

Variable a : abi.
Variable rt : runtime.

(** [__cxxabiv1::__cxa_get_globals_fast()]: the thread's bookkeeping handle,
    null until [__cxa_get_globals()] has run on this thread. *)
Definition __cxa_get_globals_fast : M addr :=
  fun s => (Returns (tls_globals s) s, []).

(** [__cxxabiv1::__cxa_get_globals()]: as above, but the first call on a
    thread creates the zeroed bookkeeping record. *)
Definition __cxa_get_globals : M addr :=
  fun s =>
    if tls_globals s =? nullptr then
      let g := eh_globals_storage rt in
      (Returns g
         {| memory :=
              <[g := Obj_globals {| caughtExceptions := nullptr; uncaughtExceptions := 0 |}]>
                (memory s);
            tls_globals := g;
            stdout := stdout s |},
       [Alloc g])
    else (Returns (tls_globals s) s, []).

(** [assert(cond && "msg")]. *)
Definition assert (cond : bool) (msg : string) : M unit :=
  fun s => if cond then (Returns tt s, []) else (Aborts msg s, []).

(** [printf(...)]. *)
Definition printf (l : log_line) : M unit :=
  fun s => (Returns tt (add_stdout l s), []).

(** [std::terminate()]. *)
Definition terminate {A : Type} : M A :=
  fun s => (Terminates s, []).

(** [throw;] inside a handler. *)
Definition rethrow {A : Type} : M A :=
  fun s => (Rethrows s, []).

(** [*reinterpret_cast<void**>(globals)]: the first pointer-sized member of
    the object at [globals]. *)
Definition load_first_member (globals : addr) : M addr :=
  fun s =>
    match memory s !! globals with
    | Some (Obj_globals g) => (Returns (caughtExceptions g) s, [Read globals f_caughtExceptions])
    | _ => (Undefined, [Read globals f_caughtExceptions])
    end.

(** [header->exception_class]. *)
Definition load_exception_class (h : addr) : M Z :=
  fun s =>
    match header_at a (memory s) h with
    | Some u => (Returns (exception_class u) s, [Read h f_exception_class])
    | None => (Undefined, [Read h f_exception_class])
    end.

(** [base->ty]. *)
Definition load_ty (b : addr) : M type_info :=
  fun s =>
    match base_at a (memory s) b with
    | Some be => (Returns (ty be) s, [Read b f_ty])
    | None => (Undefined, [Read b f_ty])
    end.

(** [wrapped->body] for [wrapped : wrapped_exception<T>*]. *)
Definition load_body (T : ptype) (wrapped : addr) : M (carrier T) :=
  fun s =>
    match wrapped_at T (memory s) wrapped with
    | Some w => (Returns (body w) s, [Read wrapped f_body])
    | None => (Undefined, [Read wrapped f_body])
    end.

(** [new wrapped_exception<T>(...)], the object already constructed. *)
Definition new_wrapped_exception (T : ptype) (w : wrapped_exception T) : M addr :=
  fun s =>
    match operator_new rt (memory s) with
    | Some p => (Returns p (set_memory (<[p := Obj_wrapped T w]> (memory s)) s), [Alloc p])
    | None => (BadAlloc s, [])
    end.

(** [wrapped->header.exception_cleanup = f]. *)
Definition store_exception_cleanup (T : ptype) (wrapped : addr) (f : cleanup_fn) : M unit :=
  fun s =>
    match wrapped_at T (memory s) wrapped with
    | Some w =>
        (Returns tt (set_memory (<[wrapped := Obj_wrapped T (with_cleanup f w)]> (memory s)) s),
         [Write wrapped f_exception_cleanup])
    | None => (Undefined, [Write wrapped f_exception_cleanup])
    end.

(** [delete wrapped] for [wrapped : wrapped_exception<T>*]. *)
Definition delete_wrapped_exception (T : ptype) (wrapped : addr) : M unit :=
  fun s =>
    match wrapped_at T (memory s) wrapped with
    | Some _ => (Returns tt (set_memory (delete wrapped (memory s)) s), [Free wrapped])
    | None => (Undefined, [Free wrapped])
    end.

(** [_Unwind_RaiseException(h)]: comes back only with a failure code. *)
Definition _Unwind_RaiseException (h : addr) : M _Unwind_Reason_Code :=
  fun s =>
    match raise_returns rt s h with
    | Some code => (Returns code s, [Raise h])
    | None => (Unwinds h s, [Raise h])
    end.

(** ** The raise side *)

(** The lambda assigned to [header.exception_cleanup] by [my_throw<T>]:
    [[](_Unwind_Reason_Code reason, _Unwind_Exception *exc) { ... }]. *)
Definition my_throw_cleanup (T : ptype) (reason : _Unwind_Reason_Code) (exc : addr) : M unit :=
  printf (Deleting exc) ;;
  let wrapped := exc in
  delete_wrapped_exception T wrapped.

(** [template<class T, class... Args> void my_throw(Args&&... args)]. *)
Definition my_throw (T : ptype) (args : ctor_args T) : M unit :=
  globals <- __cxa_get_globals_fast ;;
  assert (negb (globals =? nullptr)) "Initialize cxa globals before throwing." ;;
  wrapped <- new_wrapped_exception T (wrapped_exception_ctor T args) ;;
  store_exception_cleanup T wrapped (fn_my_throw_cleanup T) ;;
  printf (Throwing wrapped) ;;
  fail_reason <- _Unwind_RaiseException (address_of_header a T wrapped) ;;
  printf (Failed_to_throw (reason_value fail_reason)) ;;
  terminate.

(** The state in which [my_throw<T>(args)] calls the raise primitive when
    [new] returned [p]: the envelope sits at [p] with its cleanup routine
    installed and the line "Throwing p" has been printed. *)
Definition prepared (T : ptype) (args : ctor_args T) (p : addr) (s : state) : state :=
  add_stdout (Throwing p)
    (set_memory
       (<[p := Obj_wrapped T (with_cleanup (fn_my_throw_cleanup T) (wrapped_exception_ctor T args))]>
          (memory s))
       s).

(** ** The catch side *)

(** What [my_catch] hands back: its [bool] result and the values stored
    through the out-parameters [ty] and [caught] ([None]: not written). *)
Record my_catch_result : Type := {
  found : bool;
  ty_out : option type_info;
  caught_out : option addr
}.

(** The address [my_catch] takes for the unwind header, from the value of
    [caughtExceptions]: [exception_end] is [caughtExceptions] advanced by
    [sizeof_libcxx_cxa_exception] bytes, [header] one [_Unwind_Exception]
    before it. *)
Definition header_of_caught (caughtExceptions : addr) : addr :=
  let exception_end := caughtExceptions + sizeof_libcxx_cxa_exception in
  exception_end - 1 * sizeof_Unwind_Exception a.

(** [bool my_catch(const std::type_info** ty, base_exception** caught)]. *)
Definition my_catch : M my_catch_result :=
  globals <- __cxa_get_globals_fast ;;
  assert (negb (globals =? nullptr)) "Must call from the catch block (get_globals failed)" ;;
  caughtExceptions <- load_first_member globals ;;
  assert (negb (caughtExceptions =? nullptr)) "Must call from the catch block (no caught exception)" ;;
  let header := header_of_caught caughtExceptions in
  cls <- load_exception_class header ;;
  if negb (cls =? my_exception_class) then
    ret {| found := false; ty_out := None; caught_out := None |}
  else
    let base := header in
    t <- load_ty base ;;
    ret {| found := true; ty_out := Some t; caught_out := Some base |}.

(** Section 6 of the specification read literally: the envelope [my_catch]
    reports lies a fixed, non-negative number of bytes below the value of
    the caught slot. *)
Definition envelope_below_caught : Prop :=
  exists offset : Z,
    0 <= offset /\
    forall (s s' : state) (g : cxa_eh_globals) (r : my_catch_result) (t : list event),
      memory s !! tls_globals s = Some (Obj_globals g) ->
      my_catch s = (Returns r s', t) ->
      found r = true ->
      caught_out r = Some (caughtExceptions g - offset).

(** ** The unwinder's side of a handler *)

(** Modelled from the spec: the runtime's entry into a handler is not part of
    src/.  Section 6 gives the contract (the first field of the thread's
    handle points at the exception being handled, at a fixed platform
    distance from the envelope) and the comments of [my_catch] fix that
    distance: the slot holds the start of a [__cxa_exception] whose last
    field is the unwind header [h] that was raised. *)
Definition enter_handler (h : addr) (s : state) : option state :=
  match memory s !! tls_globals s with
  | Some (Obj_globals g) =>
      let caught := h + sizeof_Unwind_Exception a - sizeof_cxa_exception a in
      Some (set_memory
              (<[tls_globals s :=
                   Obj_globals {| caughtExceptions := caught;
                                  uncaughtExceptions := uncaughtExceptions g |}]> (memory s))
              s)
  | _ => None
  end.

(** Modelled from the spec: the runtime's exit from a handler is not part of
    src/.  Section 4.4: when the handling scope completes without
    re-propagation the runtime invokes the cleanup routine found in the
    header, once, and the exception is no longer the caught one. *)
Definition leave_handler (h : addr) : M unit :=
  fun s =>
    match header_at a (memory s) h with
    | Some u =>
        let clear : M unit :=
          fun s' =>
            match memory s' !! tls_globals s' with
            | Some (Obj_globals g) =>
                (Returns tt
                   (set_memory
                      (<[tls_globals s' :=
                           Obj_globals {| caughtExceptions := nullptr;
                                          uncaughtExceptions := uncaughtExceptions g |}]>
                         (memory s'))
                      s'),
                 [])
            | _ => (Undefined, [])
            end in
        match exception_cleanup u with
        | fn_my_throw_cleanup T =>
            (my_throw_cleanup T _URC_FOREIGN_EXCEPTION_CAUGHT h ;; clear) s
        | fn_null => clear s
        | fn_foreign _ => (Undefined, [])
        end
    | None => (Undefined, [])
    end.

(** Modelled from the spec: [try { body } catch (...) { handler }] around a
    raise of this family (sections 2 and 4.4).  An exception leaving [body]
    enters the handler; a handler that completes is followed by the
    runtime's cleanup; a handler that executes [throw;] passes the same
    header on, its cleanup skipped. *)
Definition try_catch_all {A : Type} (body handler : M A) : M A :=
  fun s =>
    match body s with
    | (Unwinds h s1, t) =>
        match enter_handler h s1 with
        | Some s2 =>
            match handler s2 with
            | (Returns x s3, t') =>
                let (o, t'') := (leave_handler h ;; ret x) s3 in (o, t ++ t' ++ t'')
            | (Rethrows s3, t') => (Unwinds h s3, t ++ t')
            | (o, t') => (o, t ++ t')
            end
        | None => (Undefined, t)
        end
    | r => r
    end.

End Program.

(** ** The demonstration driver *)

Module Demo.

(** Payload types to run the driver with: [test_exception], the one [main]
    throws and recognises; [const test_exception], as in
    [my_throw<const test_exception>(msg)]; and [int], a type [main] does not
    recognise. *)
Inductive demo_type : Type := T_test_exception | T_const_test_exception | T_int.

#[global] Instance demo_type_eq_dec : EqDecision demo_type.
Proof. solve_decision. Defined.

Definition demo_unqualified (T : demo_type) : demo_type :=
  match T with
  | T_test_exception | T_const_test_exception => T_test_exception
  | T_int => T_int
  end.

(** [struct test_exception { const char* what; };] with the string literal
    [what] points to. *)
Record test_exception : Type := { what : string }.

Definition demo_carrier (T : demo_type) : Type :=
  match T with
  | T_test_exception | T_const_test_exception => test_exception
  | T_int => Z
  end.

Definition demo_args (T : demo_type) : Type :=
  match T with
  | T_test_exception | T_const_test_exception => string
  | T_int => Z
  end.

(** [explicit test_exception(const char* msg) : what(msg) {}], and the copy
    of an [int]. *)
Definition demo_construct (T : demo_type) : demo_args T -> demo_carrier T :=
  match T with
  | T_test_exception | T_const_test_exception => fun msg => {| what := msg |}
  | T_int => fun n => n
  end.

#[global] Instance demo_payloads : Payloads :=
  {| ptype := demo_type;
     unqualified := demo_unqualified;
     carrier := demo_carrier;
     ctor_args := demo_args;
     construct := demo_construct;
     sizeof_payload := fun T => match T with T_int => 4 | _ => 8 end;
     alignof_payload := fun T => match T with T_int => 4 | _ => 8 end |}.

(** The payload types as members of the payload universe. *)
Definition test_exception_T : ptype := T_test_exception.
Definition const_test_exception_T : ptype := T_const_test_exception.
Definition int_T : ptype := T_int.

(** The body of the [catch (...)] block of [main]. *)
Definition main_handler (a : abi) : M unit :=
  r <- my_catch a ;;
  if negb (found r) then rethrow
  else
    match ty_out r, caught_out r with
    | Some ty, Some e =>
        if type_info_eq ty (typeid T_test_exception) then
          let wrapped := e - offsetof_base a T_test_exception in
          w <- load_body T_test_exception wrapped ;;
          printf (Success (what w))
        else rethrow
    | _, _ => fun _ => (Undefined, [])
    end.

(** [int main()]. *)
Definition main (a : abi) (rt : runtime) : M Z :=
  __cxa_get_globals rt ;;
  try_catch_all a
    (my_throw a rt test_exception_T "You caught me!"%string)
    (main_handler a) ;;
  ret 0.

(** The process before [main] runs. *)
Definition process_start : state :=
  {| memory := ∅; tls_globals := nullptr; stdout := [] |}.

(** A thread that has run [__cxa_get_globals()]: the bookkeeping record
    lives at [0x1000], nothing is caught, nothing was printed. *)
Definition initialised : state :=
  {| memory := {[ 0x1000 := Obj_globals {| caughtExceptions := nullptr; uncaughtExceptions := 0 |} ]};
     tls_globals := 0x1000;
     stdout := [] |}.

(** The same thread inside the [catch (...)] block of [main], handling the
    envelope that [my_throw<test_exception>("You caught me!")] allocated at
    [0x2000]: the caught slot holds [0x2000 + 32 - 128]. *)
Definition handling : state :=
  {| memory :=
       <[0x1000 := Obj_globals {| caughtExceptions := 0x1FA0; uncaughtExceptions := 0 |}]>
         (memory (prepared test_exception_T "You caught me!"%string 0x2000 initialised));
     tls_globals := 0x1000;
     stdout := [Throwing 0x2000] |}.

(** The thread inside a handler for an exception of another subsystem: a
    native C++ exception (class "CLNGC++\0") whose unwind header sits at
    [0x3000]. *)
Definition handling_foreign : state :=
  {| memory :=
       {[ 0x1000 := Obj_globals {| caughtExceptions := 0x2FA0; uncaughtExceptions := 0 |};
          0x3000 := Obj_foreign {| exception_class := 0x434C4E47432B2B00;
                                   exception_cleanup := fn_foreign 0x400100;
                                   private_1 := 0; private_2 := 0 |} ]};
     tls_globals := 0x1000;
     stdout := [] |}.

(** The thread inside a handler for an exception of another subsystem that
    uses the same class identifier as this family. *)
Definition handling_collision : state :=
  {| memory :=
       {[ 0x1000 := Obj_globals {| caughtExceptions := 0x2FA0; uncaughtExceptions := 0 |};
          0x3000 := Obj_foreign {| exception_class := my_exception_class;
                                   exception_cleanup := fn_foreign 0x400100;
                                   private_1 := 0; private_2 := 0 |} ]};
     tls_globals := 0x1000;
     stdout := [] |}.

(** A runtime whose allocator hands out [0x2000] and whose unwinder finds
    the handler. *)
Definition propagating : runtime :=
  {| eh_globals_storage := 0x1000;
     operator_new := fun _ => Some 0x2000;
     raise_returns := fun _ _ => None |}.

(** A runtime whose unwinder fails with the given code. *)
Definition failing (code : _Unwind_Reason_Code) : runtime :=
  {| eh_globals_storage := 0x1000;
     operator_new := fun _ => Some 0x2000;
     raise_returns := fun _ _ => Some code |}.

End Demo.

(** * Properties *)

Section Layout.

Context {P : Payloads}.

(** The first member of a struct sits at offset 0, whatever its alignment
    and whatever follows it. *)
Lemma offsetof_first (m : member) (rest : list member) :
  offsetof (m :: rest) (m_name m) = 0.
Proof.
  unfold offsetof. simpl. rewrite String.eqb_refl. reflexivity.
Qed.

Lemma offsetof_header_0 (a : abi) : offsetof_header a = 0.
Proof. apply (offsetof_first (Member "header" _ _)). Qed.

Lemma offsetof_base_0 (a : abi) (T : ptype) : offsetof_base a T = 0.
Proof. apply (offsetof_first (Member "base_exception" _ _)). Qed.

Lemma address_of_header_eq (a : abi) (T : ptype) (p : addr) :
  address_of_header a T p = p.
Proof.
  unfold address_of_header. rewrite offsetof_base_0, offsetof_header_0. lia.
Qed.

(** Reading back through the three views of an envelope stored at [p]. *)
Lemma wrapped_at_lookup (T : ptype) (w : wrapped_exception T) (m : gmap addr object) (p : addr) :
  m !! p = Some (Obj_wrapped T w) -> wrapped_at T m p = Some w.
Proof.
  intros Hp. unfold wrapped_at. rewrite Hp.
  destruct (decide (T = T)) as [e | ne]; [| congruence].
  rewrite (proof_irrel e eq_refl). reflexivity.
Qed.

Lemma header_at_wrapped (a : abi) (T : ptype) (w : wrapped_exception T)
      (m : gmap addr object) (p : addr) :
  m !! p = Some (Obj_wrapped T w) -> header_at a m p = Some (header (base w)).
Proof.
  intros Hp. unfold header_at. rewrite Hp.
  destruct (decide (address_of_header a T p = p)) as [_ | ne]; [reflexivity |].
  destruct ne. apply address_of_header_eq.
Qed.

Lemma base_at_wrapped (a : abi) (T : ptype) (w : wrapped_exception T)
      (m : gmap addr object) (p : addr) :
  m !! p = Some (Obj_wrapped T w) -> base_at a m p = Some (base w).
Proof.
  intros Hp. unfold base_at. rewrite Hp.
  destruct (decide (p + offsetof_base a T = p)) as [_ | ne]; [reflexivity |].
  destruct ne. rewrite offsetof_base_0. lia.
Qed.

End Layout.

Section Runs.

Context {P : Payloads}.
Variable a : abi.

(** [my_throw] up to and including the call of the raise primitive. *)
Lemma my_throw_run (rt : runtime) (T : ptype) (args : ctor_args T) (s : state) (p : addr) :
  tls_globals s <> nullptr ->
  operator_new rt (memory s) = Some p ->
  my_throw a rt T args s =
    (match raise_returns rt (prepared T args p s) (address_of_header a T p) with
     | None => Unwinds (address_of_header a T p) (prepared T args p s)
     | Some code =>
         Terminates (add_stdout (Failed_to_throw (reason_value code)) (prepared T args p s))
     end,
     [Alloc p; Write p f_exception_cleanup; Raise (address_of_header a T p)]).
Proof.
  intros Hg Hnew.
  assert (Hnz : (tls_globals s =? nullptr) = false) by (apply Z.eqb_neq; exact Hg).
  unfold my_throw, bind, __cxa_get_globals_fast, assert, new_wrapped_exception,
    store_exception_cleanup, printf, _Unwind_RaiseException, terminate.
  rewrite Hnz. simpl. rewrite Hnew. simpl.
  rewrite (wrapped_at_lookup T (wrapped_exception_ctor T args)) by apply lookup_insert_eq.
  simpl. rewrite insert_insert_eq.
  change (add_stdout _ (set_memory _ (set_memory _ s))) with (prepared T args p s).
  destruct (raise_returns rt (prepared T args p s) (address_of_header a T p)); reflexivity.
Qed.

(** The envelope as [my_throw] leaves it in memory. *)
Lemma prepared_lookup (T : ptype) (args : ctor_args T) (p : addr) (s : state) :
  memory (prepared T args p s) !! p =
    Some (Obj_wrapped T (with_cleanup (fn_my_throw_cleanup T) (wrapped_exception_ctor T args))).
Proof. unfold prepared. simpl. apply lookup_insert_eq. Qed.

Lemma prepared_lookup_ne (T : ptype) (args : ctor_args T) (p q : addr) (s : state) :
  p <> q -> memory (prepared T args p s) !! q = memory s !! q.
Proof. intros Hne. unfold prepared. simpl. apply lookup_insert_ne. exact Hne. Qed.

(** [my_catch] on a thread whose handle is live and whose caught slot is
    set: everything up to the class test. *)
Lemma my_catch_run (s : state) (g : cxa_eh_globals) (u : _Unwind_Exception) :
  tls_globals s <> nullptr ->
  memory s !! tls_globals s = Some (Obj_globals g) ->
  caughtExceptions g <> nullptr ->
  header_at a (memory s) (header_of_caught a (caughtExceptions g)) = Some u ->
  my_catch a s =
    if negb (exception_class u =? my_exception_class) then
      (Returns {| found := false; ty_out := None; caught_out := None |} s,
       [Read (tls_globals s) f_caughtExceptions;
        Read (header_of_caught a (caughtExceptions g)) f_exception_class])
    else
      match base_at a (memory s) (header_of_caught a (caughtExceptions g)) with
      | Some be =>
          (Returns {| found := true; ty_out := Some (ty be);
                      caught_out := Some (header_of_caught a (caughtExceptions g)) |} s,
           [Read (tls_globals s) f_caughtExceptions;
            Read (header_of_caught a (caughtExceptions g)) f_exception_class;
            Read (header_of_caught a (caughtExceptions g)) f_ty])
      | None =>
          (Undefined,
           [Read (tls_globals s) f_caughtExceptions;
            Read (header_of_caught a (caughtExceptions g)) f_exception_class;
            Read (header_of_caught a (caughtExceptions g)) f_ty])
      end.
Proof.
  intros Hg Hlive Hc Hu.
  assert (Hgz : (tls_globals s =? nullptr) = false) by (apply Z.eqb_neq; exact Hg).
  assert (Hcz : (caughtExceptions g =? nullptr) = false) by (apply Z.eqb_neq; exact Hc).
  unfold my_catch, bind, __cxa_get_globals_fast, assert, load_first_member,
    load_exception_class, load_ty, ret.
  rewrite Hgz. simpl. rewrite Hlive, Hcz. simpl. rewrite Hu.
  destruct (exception_class u =? my_exception_class); simpl; [| reflexivity].
  destruct (base_at a (memory s) (header_of_caught a (caughtExceptions g))); reflexivity.
Qed.

End Runs.

Section RoundTrip.

Context {P : Payloads}.

(** C1.  Round trip.  On a platform whose runtime lays its exception record
    out in the [0x80] bytes the source assumes, on a thread whose bookkeeping
    is initialised, when [my_throw<T>(args)] allocates its envelope at a
    fresh address [p] and the unwinder carries it to a handler, [my_catch]
    called in that handler returns [true], stores the tag [typeid(T)] and the
    address [p], and the envelope found there by the handler's downcast has
    a body equal to [T(args)] built directly. *)
Theorem my_throw_my_catch_round_trip
    (a : abi) (rt : runtime) (T : ptype) (args : ctor_args T)
    (s s1 : state) (g : cxa_eh_globals) (p h : addr) :
  sizeof_cxa_exception a = sizeof_libcxx_cxa_exception ->
  0 < sizeof_Unwind_Exception a ->
  memory s !! tls_globals s = Some (Obj_globals g) ->
  operator_new rt (memory s) = Some p ->
  memory s !! p = None ->
  sizeof_cxa_exception a <= p ->
  fst (my_throw a rt T args s) = Unwinds h s1 ->
  exists s2 : state,
    enter_handler a h s1 = Some s2 /\
    fst (my_catch a s2) =
      Returns {| found := true; ty_out := Some (typeid T); caught_out := Some p |} s2 /\
    exists w : wrapped_exception T,
      wrapped_at T (memory s2) (p - offsetof_base a T) = Some w /\
      ty (base w) = typeid T /\
      body w = construct T args /\
      fst (load_body T (p - offsetof_base a T) s2) = Returns (construct T args) s2.
Proof.
  intros Habi Hsz Hlive Hnew Hfresh Hp Hthrow.
  assert (Hg : tls_globals s <> nullptr).
  { intros Hz. revert Hthrow.
    unfold my_throw, bind, __cxa_get_globals_fast, assert.
    rewrite Hz. simpl. discriminate. }
  assert (Hne : p <> tls_globals s) by congruence.
  rewrite (my_throw_run a rt T args s p Hg Hnew) in Hthrow. simpl in Hthrow.
  destruct (raise_returns rt (prepared T args p s) (address_of_header a T p));
    [discriminate |].
  injection Hthrow as Hh Hs1. subst h s1.
  rewrite address_of_header_eq.
  set (w := with_cleanup (fn_my_throw_cleanup T) (wrapped_exception_ctor T args)).
  set (caught := p + sizeof_Unwind_Exception a - sizeof_cxa_exception a).
  set (g' := {| caughtExceptions := caught; uncaughtExceptions := uncaughtExceptions g |}).
  set (s2 := set_memory (<[tls_globals s := Obj_globals g']> (memory (prepared T args p s)))
                        (prepared T args p s)).
  assert (Henter : enter_handler a p (prepared T args p s) = Some s2).
  { unfold enter_handler. simpl tls_globals.
    rewrite prepared_lookup_ne by exact Hne. rewrite Hlive. reflexivity. }
  assert (Hback : header_of_caught a caught = p).
  { unfold header_of_caught, caught. rewrite Habi. lia. }
  assert (Hw : memory s2 !! p = Some (Obj_wrapped T w)).
  { unfold s2. simpl memory. rewrite lookup_insert_ne by congruence.
    apply lookup_insert_eq. }
  assert (Hg2 : memory s2 !! tls_globals s2 = Some (Obj_globals g')).
  { unfold s2. simpl. apply lookup_insert_eq. }
  exists s2. split; [exact Henter |]. split.
  - assert (Hc : caughtExceptions g' <> nullptr).
    { simpl. unfold caught, nullptr. rewrite Habi.
      unfold sizeof_libcxx_cxa_exception in *. lia. }
    assert (Hhdr : header_at a (memory s2) (header_of_caught a (caughtExceptions g')) =
                   Some (header (base w))).
    { simpl caughtExceptions. rewrite Hback. apply header_at_wrapped. exact Hw. }
    rewrite (my_catch_run a s2 g' (header (base w)) Hg Hg2 Hc Hhdr).
    change (exception_class (header (base w))) with my_exception_class.
    rewrite Z.eqb_refl. cbn [negb].
    change (caughtExceptions g') with caught. rewrite Hback.
    rewrite (base_at_wrapped a T w _ p Hw). reflexivity.
  - exists w. rewrite offsetof_base_0, Z.sub_0_r.
    rewrite (wrapped_at_lookup T w _ p Hw).
    repeat split.
    unfold load_body. rewrite (wrapped_at_lookup T w _ p Hw). reflexivity.
Qed.

End RoundTrip.

(** Scenario A: [my_throw<test_exception>("You caught me!")], caught by the
    [catch (...)] block of [main]. *)
Lemma my_throw_my_catch_round_trip_witness :
  exists s2 : state,
    enter_handler itanium_x86_64 0x2000
      (prepared Demo.test_exception_T "You caught me!"%string 0x2000 Demo.initialised) = Some s2 /\
    fst (my_catch itanium_x86_64 s2) =
      Returns {| found := true; ty_out := Some (typeid Demo.test_exception_T);
                 caught_out := Some 0x2000 |} s2 /\
    exists w : wrapped_exception Demo.test_exception_T,
      wrapped_at Demo.test_exception_T (memory s2)
        (0x2000 - offsetof_base itanium_x86_64 Demo.test_exception_T) = Some w /\
      ty (base w) = typeid Demo.test_exception_T /\
      body w = Demo.Build_test_exception "You caught me!" /\
      fst (load_body Demo.test_exception_T
             (0x2000 - offsetof_base itanium_x86_64 Demo.test_exception_T) s2) =
        Returns (Demo.Build_test_exception "You caught me!") s2.
Proof.
  apply (my_throw_my_catch_round_trip itanium_x86_64 Demo.propagating
           Demo.test_exception_T "You caught me!"%string Demo.initialised
           (prepared Demo.test_exception_T "You caught me!"%string 0x2000 Demo.initialised)
           {| caughtExceptions := nullptr; uncaughtExceptions := 0 |} 0x2000 0x2000).
  - reflexivity.
  - reflexivity.
  - reflexivity.
  - reflexivity.
  - reflexivity.
  - vm_compute. discriminate.
  - reflexivity.
Defined.

(** The handler of [main] then prints the message it was thrown with. *)
Example main_prints_the_message :
  exists s2 s3 : state,
    enter_handler itanium_x86_64 0x2000
      (prepared Demo.test_exception_T "You caught me!"%string 0x2000 Demo.initialised) = Some s2 /\
    fst (Demo.main_handler itanium_x86_64 s2) = Returns tt s3 /\
    stdout s3 = [Throwing 0x2000; Success "You caught me!"].
Proof. eexists. eexists. split; [reflexivity |]. split; reflexivity. Qed.

(** A payload type that [main] does not recognise is thrown on. *)
Example main_rethrows_unknown_type :
  exists s2 : state,
    enter_handler itanium_x86_64 0x2000
      (prepared Demo.int_T 7 0x2000 Demo.initialised) = Some s2 /\
    fst (Demo.main_handler itanium_x86_64 s2) = Rethrows s2.
Proof. eexists. split; reflexivity. Qed.

Section Catch.

Context {P : Payloads}.
Variable a : abi.

(** The five ways a call of [my_catch] can go. *)
Lemma my_catch_cases (s : state) :
  (tls_globals s = nullptr /\
   my_catch a s =
     (Aborts "Must call from the catch block (get_globals failed)" s, [])) \/
  (tls_globals s <> nullptr /\
   (forall g, memory s !! tls_globals s <> Some (Obj_globals g)) /\
   my_catch a s = (Undefined, [Read (tls_globals s) f_caughtExceptions])) \/
  (exists g,
     tls_globals s <> nullptr /\
     memory s !! tls_globals s = Some (Obj_globals g) /\
     caughtExceptions g = nullptr /\
     my_catch a s =
       (Aborts "Must call from the catch block (no caught exception)" s,
        [Read (tls_globals s) f_caughtExceptions])) \/
  (exists g,
     tls_globals s <> nullptr /\
     memory s !! tls_globals s = Some (Obj_globals g) /\
     caughtExceptions g <> nullptr /\
     header_at a (memory s) (header_of_caught a (caughtExceptions g)) = None /\
     my_catch a s =
       (Undefined,
        [Read (tls_globals s) f_caughtExceptions;
         Read (header_of_caught a (caughtExceptions g)) f_exception_class])) \/
  (exists g u,
     tls_globals s <> nullptr /\
     memory s !! tls_globals s = Some (Obj_globals g) /\
     caughtExceptions g <> nullptr /\
     header_at a (memory s) (header_of_caught a (caughtExceptions g)) = Some u).
Proof.
  destruct (Z.eqb_spec (tls_globals s) nullptr) as [Hz | Hnz].
  { left. split; [exact Hz |].
    unfold my_catch, bind, __cxa_get_globals_fast, assert.
    rewrite Hz. reflexivity. }
  right.
  assert (Hgz : (tls_globals s =? nullptr) = false) by (apply Z.eqb_neq; exact Hnz).
  destruct (memory s !! tls_globals s) as [o |] eqn:Hlook.
  2:{ left. split; [exact Hnz |]. split; [discriminate |].
      unfold my_catch, bind, __cxa_get_globals_fast, assert, load_first_member.
      rewrite Hgz. simpl. rewrite Hlook. reflexivity. }
  destruct o as [g | T w | u].
  2:{ left. split; [exact Hnz |]. split; [discriminate |].
      unfold my_catch, bind, __cxa_get_globals_fast, assert, load_first_member.
      rewrite Hgz. simpl. rewrite Hlook. reflexivity. }
  2:{ left. split; [exact Hnz |]. split; [discriminate |].
      unfold my_catch, bind, __cxa_get_globals_fast, assert, load_first_member.
      rewrite Hgz. simpl. rewrite Hlook. reflexivity. }
  right.
  destruct (Z.eqb_spec (caughtExceptions g) nullptr) as [Hc | Hc].
  { left. exists g. repeat (split; [assumption || reflexivity |]).
    unfold my_catch, bind, __cxa_get_globals_fast, assert, load_first_member.
    rewrite Hgz. simpl. rewrite Hlook, Hc. reflexivity. }
  right.
  assert (Hcz : (caughtExceptions g =? nullptr) = false) by (apply Z.eqb_neq; exact Hc).
  destruct (header_at a (memory s) (header_of_caught a (caughtExceptions g)))
    as [u |] eqn:Hu.
  - right. exists g, u. repeat (split; [assumption || reflexivity |]). exact Hu.
  - left. exists g. repeat (split; [assumption || reflexivity |]).
    unfold my_catch, bind, __cxa_get_globals_fast, assert, load_first_member,
      load_exception_class.
    rewrite Hgz. simpl. rewrite Hlook, Hcz. simpl. rewrite Hu. reflexivity.
Qed.

(** C2, as amended.  When [my_catch] reports an envelope, its address is the
    value of the caught slot advanced by the hard-coded [0x80] bytes and
    stepped back by one [_Unwind_Exception]; that is also the address whose
    class identifier it reads, and wherever the unwind header is smaller
    than [0x80] bytes the envelope lies above the caught pointer. *)
Theorem my_catch_envelope_address
    (s s' : state) (g : cxa_eh_globals) (r : my_catch_result) (t : list event) :
  memory s !! tls_globals s = Some (Obj_globals g) ->
  my_catch a s = (Returns r s', t) ->
  found r = true ->
  caught_out r =
    Some (caughtExceptions g + sizeof_libcxx_cxa_exception - sizeof_Unwind_Exception a) /\
  In (Read (caughtExceptions g + sizeof_libcxx_cxa_exception - sizeof_Unwind_Exception a)
           f_exception_class) t /\
  (sizeof_Unwind_Exception a < sizeof_libcxx_cxa_exception ->
   forall e, caught_out r = Some e -> caughtExceptions g < e).
Proof.
  intros Hlive Hrun Hfound.
  assert (Haddr : header_of_caught a (caughtExceptions g) =
                  caughtExceptions g + sizeof_libcxx_cxa_exception - sizeof_Unwind_Exception a).
  { unfold header_of_caught. lia. }
  destruct (my_catch_cases s)
    as [[_ H] | [[_ [_ H]] | [[g' [_ [_ [_ H]]]] | [[g' [_ [_ [_ [_ H]]]]] | H]]]];
    try (rewrite H in Hrun; discriminate).
  destruct H as [g' [u [Hg [Hlive' [Hc Hu]]]]].
  assert (g' = g) by congruence. subst g'.
  rewrite (my_catch_run a s g u Hg Hlive Hc Hu) in Hrun.
  destruct (negb (exception_class u =? my_exception_class)).
  { injection Hrun as Hr _ _. subst r. discriminate. }
  destruct (base_at a (memory s) (header_of_caught a (caughtExceptions g))) as [be |];
    [| discriminate].
  injection Hrun as Hr _ Ht. subst r t. simpl. rewrite Haddr.
  split; [reflexivity |]. split; [right; left; reflexivity |].
  intros Hlt e He. injection He as He. lia.
Qed.

(** C3.  Foreign exception.  In a handler whose caught exception carries a
    class identifier other than [my_exception_class], [my_catch] returns
    [false] and writes neither out-parameter; it leaves the whole state as
    it found it (nothing is printed, nothing is freed: no cleanup routine
    ran), and its only accesses are the two loads of the caught slot and of
    the class identifier: neither the type tag nor the payload is read. *)
Theorem my_catch_foreign_exception
    (s : state) (g : cxa_eh_globals) (u : _Unwind_Exception) :
  tls_globals s <> nullptr ->
  memory s !! tls_globals s = Some (Obj_globals g) ->
  caughtExceptions g <> nullptr ->
  header_at a (memory s) (header_of_caught a (caughtExceptions g)) = Some u ->
  exception_class u <> my_exception_class ->
  my_catch a s =
    (Returns {| found := false; ty_out := None; caught_out := None |} s,
     [Read (tls_globals s) f_caughtExceptions;
      Read (header_of_caught a (caughtExceptions g)) f_exception_class]) /\
  (forall p, ~ In (Read p f_body) (snd (my_catch a s))) /\
  (forall p, ~ In (Read p f_ty) (snd (my_catch a s))) /\
  (forall p, ~ In (Free p) (snd (my_catch a s))).
Proof.
  intros Hg Hlive Hc Hu Hclass.
  assert (Hrun := my_catch_run a s g u Hg Hlive Hc Hu).
  apply Z.eqb_neq in Hclass. rewrite Hclass in Hrun. cbn [negb] in Hrun.
  rewrite Hrun. split; [reflexivity |].
  repeat split; intros p [H | [H | []]]; discriminate.
Qed.

End Catch.

(** The literal reading fails on the platform of the source: in the handler
    of [main] the caught slot holds [0x1FA0] and the envelope reported by
    [my_catch] is at [0x2000], which is [0x60] bytes above it. *)
Lemma envelope_not_below_caught :
  ~ envelope_below_caught (P := Demo.demo_payloads) itanium_x86_64.
Proof.
  intros [offset [Hpos Hall]].
  specialize (Hall Demo.handling Demo.handling
                {| caughtExceptions := 0x1FA0; uncaughtExceptions := 0 |}
                {| found := true; ty_out := Some (typeid Demo.test_exception_T);
                   caught_out := Some 0x2000 |}
                [Read 0x1000 f_caughtExceptions; Read 0x2000 f_exception_class;
                 Read 0x2000 f_ty]
                eq_refl eq_refl eq_refl).
  simpl in Hall. injection Hall as Hall. lia.
Qed.

Lemma my_catch_envelope_address_witness :
  caught_out {| found := true; ty_out := Some (typeid Demo.test_exception_T);
                caught_out := Some 0x2000 |} =
    Some (0x1FA0 + sizeof_libcxx_cxa_exception - sizeof_Unwind_Exception itanium_x86_64) /\
  In (Read (0x1FA0 + sizeof_libcxx_cxa_exception - sizeof_Unwind_Exception itanium_x86_64)
           f_exception_class)
     [Read 0x1000 f_caughtExceptions; Read 0x2000 f_exception_class; Read 0x2000 f_ty] /\
  (sizeof_Unwind_Exception itanium_x86_64 < sizeof_libcxx_cxa_exception ->
   forall e,
     caught_out {| found := true; ty_out := Some (typeid Demo.test_exception_T);
                   caught_out := Some 0x2000 |} = Some e ->
     0x1FA0 < e).
Proof.
  apply (my_catch_envelope_address itanium_x86_64 Demo.handling Demo.handling
           {| caughtExceptions := 0x1FA0; uncaughtExceptions := 0 |}).
  - reflexivity.
  - reflexivity.
  - reflexivity.
Defined.

Lemma my_catch_foreign_exception_witness :
  my_catch itanium_x86_64 Demo.handling_foreign =
    (Returns {| found := false; ty_out := None; caught_out := None |} Demo.handling_foreign,
     [Read 0x1000 f_caughtExceptions; Read 0x3000 f_exception_class]) /\
  (forall p, ~ In (Read p f_body) (snd (my_catch itanium_x86_64 Demo.handling_foreign))) /\
  (forall p, ~ In (Read p f_ty) (snd (my_catch itanium_x86_64 Demo.handling_foreign))) /\
  (forall p, ~ In (Free p) (snd (my_catch itanium_x86_64 Demo.handling_foreign))).
Proof.
  apply (my_catch_foreign_exception itanium_x86_64 Demo.handling_foreign
           {| caughtExceptions := 0x2FA0; uncaughtExceptions := 0 |}
           {| exception_class := 0x434C4E47432B2B00;
              exception_cleanup := fn_foreign 0x400100;
              private_1 := 0; private_2 := 0 |}).
  - vm_compute. discriminate.
  - reflexivity.
  - vm_compute. discriminate.
  - reflexivity.
  - vm_compute. discriminate.
Defined.

Section Raise.

Context {P : Payloads}.
Variable a : abi.
Variable rt : runtime.

(** The two ways [my_throw] stops before it reaches the raise primitive. *)
Lemma my_throw_uninitialised (T : ptype) (args : ctor_args T) (s : state) :
  tls_globals s = nullptr ->
  my_throw a rt T args s = (Aborts "Initialize cxa globals before throwing." s, []).
Proof.
  intros Hz. unfold my_throw, bind, __cxa_get_globals_fast, assert.
  rewrite Hz. reflexivity.
Qed.

Lemma my_throw_bad_alloc (T : ptype) (args : ctor_args T) (s : state) :
  tls_globals s <> nullptr ->
  operator_new rt (memory s) = None ->
  my_throw a rt T args s = (BadAlloc s, []).
Proof.
  intros Hg Hnew. apply Z.eqb_neq in Hg.
  unfold my_throw, bind, __cxa_get_globals_fast, assert, new_wrapped_exception.
  rewrite Hg. simpl. rewrite Hnew. reflexivity.
Qed.

(** C4.  [my_throw] never returns to its caller.  Whatever the state, the
    allocator and the unwinder do, its outcome is not a normal return; when
    the raise primitive does not come back, control leaves with the
    unwinder; when it comes back, with any code, the line
    "Failed to throw (reason = code)" is printed and the process is
    terminated in that very state (nothing was freed in between). *)
Theorem my_throw_never_returns (T : ptype) (args : ctor_args T) (s : state) :
  (forall (x : unit) (s' : state), fst (my_throw a rt T args s) <> Returns x s') /\
  (forall p : addr,
     tls_globals s <> nullptr ->
     operator_new rt (memory s) = Some p ->
     raise_returns rt (prepared T args p s) (address_of_header a T p) = None ->
     fst (my_throw a rt T args s) = Unwinds (address_of_header a T p) (prepared T args p s)) /\
  (forall (p : addr) (code : _Unwind_Reason_Code),
     tls_globals s <> nullptr ->
     operator_new rt (memory s) = Some p ->
     raise_returns rt (prepared T args p s) (address_of_header a T p) = Some code ->
     my_throw a rt T args s =
       (Terminates (add_stdout (Failed_to_throw (reason_value code)) (prepared T args p s)),
        [Alloc p; Write p f_exception_cleanup; Raise (address_of_header a T p)])).
Proof.
  split; [| split].
  - intros x s'.
    destruct (Z.eq_dec (tls_globals s) nullptr) as [Hz | Hg].
    { rewrite (my_throw_uninitialised T args s Hz). discriminate. }
    destruct (operator_new rt (memory s)) as [p |] eqn:Hnew.
    + rewrite (my_throw_run a rt T args s p Hg Hnew). simpl.
      destruct (raise_returns rt (prepared T args p s) (address_of_header a T p));
        discriminate.
    + rewrite (my_throw_bad_alloc T args s Hg Hnew). discriminate.
  - intros p Hg Hnew Hraise.
    rewrite (my_throw_run a rt T args s p Hg Hnew), Hraise. reflexivity.
  - intros p code Hg Hnew Hraise.
    rewrite (my_throw_run a rt T args s p Hg Hnew), Hraise. reflexivity.
Qed.

(** C6.  The envelope [my_throw] hands to the raise primitive.  When the
    thread is initialised and [new] returns [p], the raise primitive is
    called in the state [prepared], after the allocation and the store of the
    cleanup pointer; in that state the envelope at [p] has a header whose
    class identifier is [my_exception_class], whose cleanup routine is the
    lambda of [my_throw<T>], and whose remaining fields are zero. *)
Theorem my_throw_envelope_header (T : ptype) (args : ctor_args T) (s : state) (p : addr) :
  tls_globals s <> nullptr ->
  operator_new rt (memory s) = Some p ->
  my_throw a rt T args s =
    (match raise_returns rt (prepared T args p s) (address_of_header a T p) with
     | None => Unwinds (address_of_header a T p) (prepared T args p s)
     | Some code =>
         Terminates (add_stdout (Failed_to_throw (reason_value code)) (prepared T args p s))
     end,
     [Alloc p; Write p f_exception_cleanup; Raise (address_of_header a T p)]) /\
  exists w : wrapped_exception T,
    wrapped_at T (memory (prepared T args p s)) p = Some w /\
    header_at a (memory (prepared T args p s)) (address_of_header a T p) =
      Some (header (base w)) /\
    exception_class (header (base w)) = 0x0123456789ABCDEF /\
    header (base w) =
      {| exception_class := my_exception_class;
         exception_cleanup := fn_my_throw_cleanup T;
         private_1 := 0;
         private_2 := 0 |}.
Proof.
  intros Hg Hnew. split; [apply my_throw_run; assumption |].
  exists (with_cleanup (fn_my_throw_cleanup T) (wrapped_exception_ctor T args)).
  split; [apply wrapped_at_lookup, prepared_lookup |].
  split; [| split; reflexivity].
  rewrite address_of_header_eq.
  apply (header_at_wrapped a T _ _ p), prepared_lookup.
Qed.

End Raise.

Section Cleanup.

Context {P : Payloads}.

(** C10.  The cleanup routine does the same for every reason code: it
    prints "Deleting exc" and deletes the envelope at [exc]; when an envelope
    of type [T] is there, that is all it does. *)
Theorem cleanup_ignores_reason
    (T : ptype) (r1 r2 : _Unwind_Reason_Code) (exc : addr) (s : state) :
  my_throw_cleanup T r1 exc s = my_throw_cleanup T r2 exc s /\
  (forall w : wrapped_exception T,
     wrapped_at T (memory s) exc = Some w ->
     my_throw_cleanup T r1 exc s =
       (Returns tt
          {| memory := delete exc (memory s);
             tls_globals := tls_globals s;
             stdout := stdout s ++ [Deleting exc] |},
        [Free exc])).
Proof.
  split; [reflexivity |].
  intros w Hw.
  unfold my_throw_cleanup, bind, printf, delete_wrapped_exception. simpl.
  rewrite Hw. reflexivity.
Qed.

(** C5.  Header-first layout.  For an envelope of any payload type stored at
    [p], the address of its [header] member is [p] itself; the header pointer
    therefore reads the envelope's own header, the cast of [my_catch] to
    [base_exception*] and the handler's downcast reach the envelope stored at
    [p], and the cleanup routine called on the header pointer deletes exactly
    that envelope. *)
Theorem envelope_address_is_header_address
    (a : abi) (T : ptype) (w : wrapped_exception T) (s : state) (p : addr)
    (reason : _Unwind_Reason_Code) :
  memory s !! p = Some (Obj_wrapped T w) ->
  address_of_header a T p = p /\
  header_at a (memory s) (address_of_header a T p) = Some (header (base w)) /\
  base_at a (memory s) (address_of_header a T p) = Some (base w) /\
  wrapped_at T (memory s) (address_of_header a T p - offsetof_base a T) = Some w /\
  my_throw_cleanup T reason (address_of_header a T p) s =
    (Returns tt
       {| memory := delete p (memory s);
          tls_globals := tls_globals s;
          stdout := stdout s ++ [Deleting p] |},
     [Free p]).
Proof.
  intros Hp. rewrite address_of_header_eq, offsetof_base_0, Z.sub_0_r.
  split; [reflexivity |].
  split; [apply header_at_wrapped; exact Hp |].
  split; [apply base_at_wrapped; exact Hp |].
  split; [apply wrapped_at_lookup; exact Hp |].
  unfold my_throw_cleanup, bind, printf, delete_wrapped_exception. simpl.
  rewrite (wrapped_at_lookup T w _ p Hp). reflexivity.
Qed.

(** C7, as amended.  Type discrimination.  The constructor records
    [typeid(T)] whatever the arguments, and installing the cleanup routine
    keeps it; the tags of two envelopes compare equal exactly when their
    payload types are the same once a reference and top-level cv-qualifiers
    are dropped.  Hence unqualified payload types have equal tags exactly
    when they are the same type, and identical declared types always have
    equal tags. *)
Theorem type_tags_discriminate
    (T U : ptype) (args : ctor_args T) (args' : ctor_args U) (f f' : cleanup_fn) :
  ty (base (with_cleanup f (wrapped_exception_ctor T args))) = typeid T /\
  (type_info_eq (ty (base (with_cleanup f (wrapped_exception_ctor T args))))
                (ty (base (with_cleanup f' (wrapped_exception_ctor U args')))) = true
   <-> unqualified T = unqualified U) /\
  (unqualified T = T -> unqualified U = U ->
   (type_info_eq (ty (base (with_cleanup f (wrapped_exception_ctor T args))))
                 (ty (base (with_cleanup f' (wrapped_exception_ctor U args')))) = true
    <-> T = U)) /\
  (T = U ->
   type_info_eq (ty (base (with_cleanup f (wrapped_exception_ctor T args))))
                (ty (base (with_cleanup f' (wrapped_exception_ctor U args')))) = true).
Proof.
  assert (Heq : type_info_eq (ty (base (with_cleanup f (wrapped_exception_ctor T args))))
                  (ty (base (with_cleanup f' (wrapped_exception_ctor U args')))) = true
                <-> unqualified T = unqualified U).
  { simpl. unfold type_info_eq, typeid. apply bool_decide_eq_true. }
  split; [reflexivity |]. split; [exact Heq |]. split.
  - intros HT HU. rewrite Heq, HT, HU. reflexivity.
  - intros ->. apply Heq. reflexivity.
Qed.

End Cleanup.

Section Usage.

Context {P : Payloads}.
Variable a : abi.

Lemma my_catch_trace (s : state) :
  snd (my_catch a s) = [] \/
  snd (my_catch a s) = [Read (tls_globals s) f_caughtExceptions] \/
  exists g,
    memory s !! tls_globals s = Some (Obj_globals g) /\
    caughtExceptions g <> nullptr /\
    (snd (my_catch a s) =
       [Read (tls_globals s) f_caughtExceptions;
        Read (header_of_caught a (caughtExceptions g)) f_exception_class] \/
     snd (my_catch a s) =
       [Read (tls_globals s) f_caughtExceptions;
        Read (header_of_caught a (caughtExceptions g)) f_exception_class;
        Read (header_of_caught a (caughtExceptions g)) f_ty]).
Proof.
  destruct (my_catch_cases a s)
    as [[_ H] | [[_ [_ H]] | [[g [_ [_ [_ H]]]] | [[g [_ [Hl [Hc [_ H]]]]] | H]]]].
  - left. rewrite H. reflexivity.
  - right. left. rewrite H. reflexivity.
  - right. left. rewrite H. reflexivity.
  - right. right. exists g. split; [exact Hl |]. split; [exact Hc |].
    left. rewrite H. reflexivity.
  - destruct H as [g [u [Hg [Hl [Hc Hu]]]]].
    right. right. exists g. split; [exact Hl |]. split; [exact Hc |].
    rewrite (my_catch_run a s g u Hg Hl Hc Hu).
    destruct (negb (exception_class u =? my_exception_class)); [left; reflexivity |].
    destruct (base_at a (memory s) (header_of_caught a (caughtExceptions g)));
      right; reflexivity.
Qed.

(** C9.  [my_catch] only reads.  Every event of a call is a load; the call
    ends by returning, by a failed assertion or in an invalid access, and
    when it returns or aborts the state is the one it started in: handle,
    caught slot, envelope and output are untouched.  A second call in the
    state left by the first gives the same result and the same loads. *)
Theorem my_catch_read_only (s : state) :
  Forall is_read (snd (my_catch a s)) /\
  match fst (my_catch a s) with
  | Returns r s' => s' = s /\ my_catch a s' = my_catch a s
  | Aborts _ s' => s' = s
  | Undefined => True
  | Unwinds _ _ | Rethrows _ | Terminates _ | BadAlloc _ => False
  end.
Proof.
  split.
  - destruct (my_catch_trace s) as [H | [H | [g [_ [_ [H | H]]]]]]; rewrite H;
      repeat constructor; eexists; eexists; reflexivity.
  - assert (Hsame : match fst (my_catch a s) with
                     | Returns _ s' | Aborts _ s' => s' = s
                     | Undefined => True
                     | Unwinds _ _ | Rethrows _ | Terminates _ | BadAlloc _ => False
                     end).
    { destruct (my_catch_cases a s)
        as [[_ H] | [[_ [_ H]] | [[g [_ [_ [_ H]]]] | [[g [_ [_ [_ [_ H]]]]] | H]]]];
        try (rewrite H; simpl; exact I || reflexivity).
      destruct H as [g [u [Hg [Hl [Hc Hu]]]]].
      rewrite (my_catch_run a s g u Hg Hl Hc Hu).
      destruct (negb (exception_class u =? my_exception_class)); simpl;
        [reflexivity |].
      destruct (base_at a (memory s) (header_of_caught a (caughtExceptions g))); simpl;
        [reflexivity | exact I]. }
    destruct (fst (my_catch a s)) as [r s' | h s' | s' | msg s' | s' | s' |];
      try exact Hsame.
    subst s'. split; reflexivity.
Qed.

(** C8.  Usage errors end in a failed assertion.  On a thread whose handle
    is null, [my_throw] aborts before it allocates and [my_catch] aborts
    before it loads anything; with a live handle but an empty caught slot,
    [my_catch] aborts after the one load of the slot.  With the handle set,
    [my_throw] does not abort; with the handle set and the caught slot
    holding an address, [my_catch] does not abort and none of the pointers
    it loads through is null. *)
Theorem usage_errors_are_assertions
    (rt : runtime) (T : ptype) (args : ctor_args T) (s : state) :
  (tls_globals s = nullptr ->
   my_throw a rt T args s = (Aborts "Initialize cxa globals before throwing." s, [])) /\
  (tls_globals s = nullptr ->
   my_catch a s = (Aborts "Must call from the catch block (get_globals failed)" s, [])) /\
  (forall g,
     tls_globals s <> nullptr ->
     memory s !! tls_globals s = Some (Obj_globals g) ->
     caughtExceptions g = nullptr ->
     my_catch a s =
       (Aborts "Must call from the catch block (no caught exception)" s,
        [Read (tls_globals s) f_caughtExceptions])) /\
  (tls_globals s <> nullptr ->
   forall msg s', fst (my_throw a rt T args s) <> Aborts msg s') /\
  (forall g,
     tls_globals s <> nullptr ->
     memory s !! tls_globals s = Some (Obj_globals g) ->
     0 < caughtExceptions g ->
     sizeof_Unwind_Exception a <= sizeof_libcxx_cxa_exception ->
     (forall msg s', fst (my_catch a s) <> Aborts msg s') /\
     (forall p f, In (Read p f) (snd (my_catch a s)) -> p <> nullptr)).
Proof.
  split; [apply my_throw_uninitialised |].
  split.
  { intros Hz. unfold my_catch, bind, __cxa_get_globals_fast, assert.
    rewrite Hz. reflexivity. }
  split.
  { intros g Hg Hl Hc. apply Z.eqb_neq in Hg.
    unfold my_catch, bind, __cxa_get_globals_fast, assert, load_first_member.
    rewrite Hg. simpl. rewrite Hl, Hc. reflexivity. }
  split.
  { intros Hg msg s'.
    destruct (operator_new rt (memory s)) as [p |] eqn:Hnew.
    - rewrite (my_throw_run a rt T args s p Hg Hnew). simpl.
      destruct (raise_returns rt (prepared T args p s) (address_of_header a T p));
        discriminate.
    - rewrite (my_throw_bad_alloc a rt T args s Hg Hnew). discriminate. }
  intros g Hg Hl Hpos Hfit.
  assert (Hc : caughtExceptions g <> nullptr) by (unfold nullptr; lia).
  assert (Hh : header_of_caught a (caughtExceptions g) <> nullptr).
  { unfold header_of_caught, nullptr. lia. }
  split.
  - intros msg s'.
    destruct (my_catch_cases a s)
      as [[Hz _] | [[_ [_ H]] | [[g' [_ [Hl' [Hc' _]]]] | [[g' [_ [_ [_ [_ H]]]]] | H]]]].
    + contradiction.
    + rewrite H. discriminate.
    + assert (g' = g) by congruence. subst g'. contradiction.
    + rewrite H. discriminate.
    + destruct H as [g' [u [_ [Hl' [Hc' Hu]]]]].
      rewrite (my_catch_run a s g' u Hg Hl' Hc' Hu).
      destruct (negb (exception_class u =? my_exception_class)); [discriminate |].
      destruct (base_at a (memory s) (header_of_caught a (caughtExceptions g')));
        discriminate.
  - intros p f Hin.
    destruct (my_catch_trace s) as [H | [H | [g' [Hl' [_ H]]]]].
    + rewrite H in Hin. destruct Hin.
    + rewrite H in Hin. destruct Hin as [Hin | []]. congruence.
    + assert (g' = g) by congruence. subst g'.
      destruct H as [H | H]; rewrite H in Hin; simpl in Hin;
        repeat (destruct Hin as [Hin | Hin]; [congruence |]); destruct Hin.
Qed.

End Usage.

(** ** The theorems on the demonstration driver *)

(** Scenario C: the unwinder finds no handler and returns
    [_URC_END_OF_STACK]; the diagnostic is printed and the process ends with
    the envelope still allocated. *)
Lemma my_throw_never_returns_witness :
  my_throw itanium_x86_64 (Demo.failing _URC_END_OF_STACK)
           Demo.test_exception_T "You caught me!"%string Demo.initialised =
    (Terminates
       (add_stdout (Failed_to_throw 5)
          (prepared Demo.test_exception_T "You caught me!"%string 0x2000 Demo.initialised)),
     [Alloc 0x2000; Write 0x2000 f_exception_cleanup; Raise 0x2000]).
Proof.
  apply (proj2 (proj2 (my_throw_never_returns itanium_x86_64
                         (Demo.failing _URC_END_OF_STACK)
                         Demo.test_exception_T "You caught me!"%string Demo.initialised))
               0x2000 _URC_END_OF_STACK).
  - vm_compute. discriminate.
  - reflexivity.
  - reflexivity.
Defined.

Lemma my_throw_envelope_header_witness :
  exists w : wrapped_exception Demo.test_exception_T,
    wrapped_at Demo.test_exception_T
      (memory (prepared Demo.test_exception_T "You caught me!"%string 0x2000 Demo.initialised))
      0x2000 = Some w /\
    header (base w) =
      {| exception_class := my_exception_class;
         exception_cleanup := fn_my_throw_cleanup Demo.test_exception_T;
         private_1 := 0;
         private_2 := 0 |}.
Proof.
  destruct (my_throw_envelope_header itanium_x86_64 Demo.propagating
              Demo.test_exception_T "You caught me!"%string Demo.initialised 0x2000)
    as [_ [w [Hw [_ [_ Hh]]]]].
  - vm_compute. discriminate.
  - reflexivity.
  - exists w. split; [exact Hw | exact Hh].
Defined.

Lemma envelope_address_is_header_address_witness :
  address_of_header itanium_x86_64 Demo.test_exception_T 0x2000 = 0x2000 /\
  my_throw_cleanup Demo.test_exception_T _URC_FOREIGN_EXCEPTION_CAUGHT
    (address_of_header itanium_x86_64 Demo.test_exception_T 0x2000) Demo.handling =
    (Returns tt
       {| memory := delete 0x2000 (memory Demo.handling);
          tls_globals := 0x1000;
          stdout := [Throwing 0x2000; Deleting 0x2000] |},
     [Free 0x2000]).
Proof.
  destruct (envelope_address_is_header_address itanium_x86_64 Demo.test_exception_T
              (with_cleanup (fn_my_throw_cleanup Demo.test_exception_T)
                 (wrapped_exception_ctor Demo.test_exception_T "You caught me!"%string))
              Demo.handling 0x2000 _URC_FOREIGN_EXCEPTION_CAUGHT)
    as [Haddr [_ [_ [_ Hclean]]]].
  - reflexivity.
  - split; [exact Haddr | exact Hclean].
Defined.

Lemma cleanup_ignores_reason_witness :
  my_throw_cleanup Demo.test_exception_T _URC_FOREIGN_EXCEPTION_CAUGHT 0x2000 Demo.handling =
    my_throw_cleanup Demo.test_exception_T _URC_FATAL_PHASE2_ERROR 0x2000 Demo.handling /\
  my_throw_cleanup Demo.test_exception_T _URC_FOREIGN_EXCEPTION_CAUGHT 0x2000 Demo.handling =
    (Returns tt
       {| memory := delete 0x2000 (memory Demo.handling);
          tls_globals := 0x1000;
          stdout := [Throwing 0x2000; Deleting 0x2000] |},
     [Free 0x2000]).
Proof.
  destruct (cleanup_ignores_reason Demo.test_exception_T
              _URC_FOREIGN_EXCEPTION_CAUGHT _URC_FATAL_PHASE2_ERROR 0x2000 Demo.handling)
    as [Hsame Hfree].
  split; [exact Hsame |].
  apply (Hfree (with_cleanup (fn_my_throw_cleanup Demo.test_exception_T)
                  (wrapped_exception_ctor Demo.test_exception_T "You caught me!"%string))).
  reflexivity.
Defined.

(** The literal reading fails: an envelope built for [const test_exception]
    and one built for [test_exception] record tags that compare equal,
    though the declared payload types differ. *)
Lemma tags_confuse_const_payload :
  ~ tags_tell_declared_types_apart (P := Demo.demo_payloads).
Proof.
  intros Hall.
  assert (H : Demo.const_test_exception_T = Demo.test_exception_T).
  { apply (Hall Demo.const_test_exception_T Demo.test_exception_T
                "You caught me!"%string "You caught me!"%string).
    reflexivity. }
  discriminate H.
Qed.

(** [int] and [test_exception] are unqualified and distinct: their envelopes
    carry unequal tags. *)
Lemma type_tags_discriminate_witness :
  type_info_eq
    (ty (base (with_cleanup fn_null
                 (wrapped_exception_ctor Demo.test_exception_T "You caught me!"%string))))
    (ty (base (with_cleanup fn_null (wrapped_exception_ctor Demo.int_T 7)))) = true
  <-> Demo.test_exception_T = Demo.int_T.
Proof.
  apply (proj1 (proj2 (proj2
           (type_tags_discriminate Demo.test_exception_T Demo.int_T
              "You caught me!"%string 7 fn_null fn_null)))).
  - reflexivity.
  - reflexivity.
Defined.

Lemma usage_errors_are_assertions_witness :
  (forall msg s', fst (my_catch itanium_x86_64 Demo.handling) <> Aborts msg s') /\
  (forall p f, In (Read p f) (snd (my_catch itanium_x86_64 Demo.handling)) -> p <> nullptr).
Proof.
  apply (proj2 (proj2 (proj2 (proj2
           (usage_errors_are_assertions itanium_x86_64 Demo.propagating
              Demo.test_exception_T "You caught me!"%string Demo.handling))))
           {| caughtExceptions := 0x1FA0; uncaughtExceptions := 0 |}).
  - vm_compute. discriminate.
  - reflexivity.
  - reflexivity.
  - vm_compute. discriminate.
Defined.

(** The three usage errors on the driver's thread. *)
Example my_throw_before_initialisation :
  my_throw itanium_x86_64 Demo.propagating Demo.test_exception_T "You caught me!"%string
           Demo.process_start =
    (Aborts "Initialize cxa globals before throwing." Demo.process_start, []).
Proof. reflexivity. Qed.

Example my_catch_before_initialisation :
  my_catch itanium_x86_64 Demo.process_start =
    (Aborts "Must call from the catch block (get_globals failed)" Demo.process_start, []).
Proof. reflexivity. Qed.

Example my_catch_outside_handler :
  my_catch itanium_x86_64 Demo.initialised =
    (Aborts "Must call from the catch block (no caught exception)" Demo.initialised,
     [Read 0x1000 f_caughtExceptions]).
Proof. reflexivity. Qed.

(** Probing twice in the handler of [main] gives the same answer. *)
Example my_catch_twice :
  fst (my_catch itanium_x86_64 Demo.handling) =
    Returns {| found := true; ty_out := Some (typeid Demo.test_exception_T);
               caught_out := Some 0x2000 |} Demo.handling /\
  fst ((my_catch itanium_x86_64 ;; my_catch itanium_x86_64) Demo.handling) =
    fst (my_catch itanium_x86_64 Demo.handling).
Proof. split; reflexivity. Qed.

(** [Demo.handling] is the state in which the handler of [main] starts. *)
Example handler_of_main_starts_in_handling :
  enter_handler itanium_x86_64 0x2000
    (prepared Demo.test_exception_T "You caught me!"%string 0x2000 Demo.initialised) =
    Some Demo.handling.
Proof. reflexivity. Qed.

(** The whole driver.  With an unwinder that finds the handler, [main]
    returns 0 after printing the three lines of the program's output; the
    envelope is gone and nothing is caught any more. *)
Example main_runs :
  Demo.main itanium_x86_64 Demo.propagating Demo.process_start =
    (Returns 0 (add_stdout (Deleting 0x2000)
                  (add_stdout (Success "You caught me!")
                     (add_stdout (Throwing 0x2000) Demo.initialised))),
     [Alloc 0x1000; Alloc 0x2000; Write 0x2000 f_exception_cleanup; Raise 0x2000;
      Read 0x1000 f_caughtExceptions; Read 0x2000 f_exception_class;
      Read 0x2000 f_ty; Read 0x2000 f_body; Free 0x2000]).
Proof. vm_compute. reflexivity. Qed.

(** With an unwinder that gives up, [main] ends in [std::terminate()] after
    the diagnostic; the handler never runs and nothing is freed. *)
Example main_fails_to_throw :
  Demo.main itanium_x86_64 (Demo.failing _URC_FATAL_PHASE1_ERROR) Demo.process_start =
    (Terminates
       (add_stdout (Failed_to_throw 3)
          (prepared Demo.test_exception_T "You caught me!"%string 0x2000 Demo.initialised)),
     [Alloc 0x1000; Alloc 0x2000; Write 0x2000 f_exception_cleanup; Raise 0x2000]).
Proof. vm_compute. reflexivity. Qed.

(** * Further properties of the catch side *)

Section CatchMore.

Context {P : Payloads}.
Variable a : abi.

(** X1.  The out-parameters are written exactly when [true] is returned.
    Whenever [my_catch] returns, the header it inspected carries
    [my_exception_class] if and only if the result is [true]; on [true] the
    out-parameter [caught] holds the address of that header and [ty] the tag
    stored in the [base_exception] there; on [false] neither was written. *)
Theorem my_catch_out_parameters
    (s s' : state) (r : my_catch_result) (t : list event) :
  my_catch a s = (Returns r s', t) ->
  exists (g : cxa_eh_globals) (u : _Unwind_Exception),
    memory s !! tls_globals s = Some (Obj_globals g) /\
    header_at a (memory s) (header_of_caught a (caughtExceptions g)) = Some u /\
    (found r = true <-> exception_class u = my_exception_class) /\
    (found r = true ->
     caught_out r = Some (header_of_caught a (caughtExceptions g)) /\
     exists be : base_exception,
       base_at a (memory s) (header_of_caught a (caughtExceptions g)) = Some be /\
       ty_out r = Some (ty be)) /\
    (found r = false -> ty_out r = None /\ caught_out r = None).
Proof.
  intros Hrun.
  destruct (my_catch_cases a s)
    as [[_ H] | [[_ [_ H]] | [[g [_ [_ [_ H]]]] | [[g [_ [_ [_ [_ H]]]]] | H]]]];
    try (rewrite H in Hrun; discriminate).
  destruct H as [g [u [Hg [Hl [Hc Hu]]]]].
  exists g, u. split; [exact Hl |]. split; [exact Hu |].
  rewrite (my_catch_run a s g u Hg Hl Hc Hu) in Hrun.
  destruct (Z.eqb_spec (exception_class u) my_exception_class) as [Heq | Hne];
    cbn [negb] in Hrun.
  - destruct (base_at a (memory s) (header_of_caught a (caughtExceptions g))) as [be |];
      [| discriminate].
    injection Hrun as Hr _ _. subst r. simpl.
    split; [split; intros _; [exact Heq | reflexivity] |].
    split; [| discriminate].
    intros _. split; [reflexivity |]. exists be. split; reflexivity.
  - injection Hrun as Hr _ _. subst r. simpl.
    split; [split; [discriminate | intros H; contradiction] |].
    split; [discriminate |]. intros _. split; reflexivity.
Qed.

(** X2.  A class identifier shared with another subsystem.  If the exception
    being handled is not an envelope of this family but its header carries
    [my_exception_class], [my_catch] takes it for its own and goes on to
    load a type tag from it: the class identifier is the only test made. *)
Theorem my_catch_class_collision
    (s : state) (g : cxa_eh_globals) (u : _Unwind_Exception) :
  tls_globals s <> nullptr ->
  memory s !! tls_globals s = Some (Obj_globals g) ->
  caughtExceptions g <> nullptr ->
  memory s !! header_of_caught a (caughtExceptions g) = Some (Obj_foreign u) ->
  exception_class u = my_exception_class ->
  my_catch a s =
    (Undefined,
     [Read (tls_globals s) f_caughtExceptions;
      Read (header_of_caught a (caughtExceptions g)) f_exception_class;
      Read (header_of_caught a (caughtExceptions g)) f_ty]).
Proof.
  intros Hg Hl Hc Hobj Hclass.
  assert (Hu : header_at a (memory s) (header_of_caught a (caughtExceptions g)) = Some u).
  { unfold header_at. rewrite Hobj. reflexivity. }
  rewrite (my_catch_run a s g u Hg Hl Hc Hu), Hclass, Z.eqb_refl. cbn [negb].
  unfold base_at. rewrite Hobj. reflexivity.
Qed.

(** X3.  The hard-coded record size must be the runtime's.  Once the runtime has
    entered a handler for the header at [h], the address [my_catch] derives
    from the caught slot is [h] again if and only if the runtime's exception
    record is [sizeof_libcxx_cxa_exception] bytes long. *)
Theorem my_catch_needs_matching_record_size (h : addr) (s s2 : state) :
  enter_handler a h s = Some s2 ->
  exists g2 : cxa_eh_globals,
    memory s2 !! tls_globals s2 = Some (Obj_globals g2) /\
    (header_of_caught a (caughtExceptions g2) = h <->
     sizeof_cxa_exception a = sizeof_libcxx_cxa_exception).
Proof.
  unfold enter_handler.
  destruct (memory s !! tls_globals s) as [[g | T w | u] |]; try discriminate.
  intros Hs2. injection Hs2 as Hs2. subst s2. simpl.
  eexists. split; [apply lookup_insert_eq |].
  simpl. unfold header_of_caught. split; intros H; lia.
Qed.

(** [my_catch] as one nested case distinction. *)
Lemma my_catch_closed_form (s : state) :
  my_catch a s =
    if tls_globals s =? nullptr then
      (Aborts "Must call from the catch block (get_globals failed)" s, [])
    else
      match memory s !! tls_globals s with
      | Some (Obj_globals g) =>
          let h := header_of_caught a (caughtExceptions g) in
          if caughtExceptions g =? nullptr then
            (Aborts "Must call from the catch block (no caught exception)" s,
             [Read (tls_globals s) f_caughtExceptions])
          else
            match header_at a (memory s) h with
            | None =>
                (Undefined,
                 [Read (tls_globals s) f_caughtExceptions; Read h f_exception_class])
            | Some u =>
                if negb (exception_class u =? my_exception_class) then
                  (Returns {| found := false; ty_out := None; caught_out := None |} s,
                   [Read (tls_globals s) f_caughtExceptions; Read h f_exception_class])
                else
                  match base_at a (memory s) h with
                  | Some be =>
                      (Returns {| found := true; ty_out := Some (ty be);
                                  caught_out := Some h |} s,
                       [Read (tls_globals s) f_caughtExceptions;
                        Read h f_exception_class; Read h f_ty])
                  | None =>
                      (Undefined,
                       [Read (tls_globals s) f_caughtExceptions;
                        Read h f_exception_class; Read h f_ty])
                  end
            end
      | _ => (Undefined, [Read (tls_globals s) f_caughtExceptions])
      end.
Proof.
  destruct (my_catch_cases a s)
    as [[Hz H] | [[Hg [Hn H]] | [[g [Hg [Hl [Hc H]]]] | [[g [Hg [Hl [Hc [Hu H]]]]] | H]]]].
  - rewrite H, Hz. reflexivity.
  - apply Z.eqb_neq in Hg. rewrite H, Hg.
    destruct (memory s !! tls_globals s) as [[g | T w | u] |]; try reflexivity.
    destruct (Hn g). reflexivity.
  - apply Z.eqb_neq in Hg. rewrite H, Hg, Hl, Hc. reflexivity.
  - apply Z.eqb_neq in Hg. apply Z.eqb_neq in Hc.
    rewrite H, Hg, Hl. cbv zeta. rewrite Hc, Hu. reflexivity.
  - destruct H as [g [u [Hg [Hl [Hc Hu]]]]].
    rewrite (my_catch_run a s g u Hg Hl Hc Hu).
    apply Z.eqb_neq in Hg. apply Z.eqb_neq in Hc.
    rewrite Hg, Hl. cbv zeta. rewrite Hc, Hu. reflexivity.
Qed.

(** X4.  [my_catch] looks at three things only.  Two states with the same handle,
    the same object behind the handle and the same object at the address
    derived from the caught slot give the same result, the same out-values
    and the same loads, whatever else differs (other allocations, the
    output written so far). *)
Theorem my_catch_locality (s1 s2 : state) :
  tls_globals s1 = tls_globals s2 ->
  memory s1 !! tls_globals s1 = memory s2 !! tls_globals s2 ->
  (forall g : cxa_eh_globals,
     memory s1 !! tls_globals s1 = Some (Obj_globals g) ->
     memory s1 !! header_of_caught a (caughtExceptions g) =
     memory s2 !! header_of_caught a (caughtExceptions g)) ->
  snd (my_catch a s1) = snd (my_catch a s2) /\
  match fst (my_catch a s1), fst (my_catch a s2) with
  | Returns r1 _, Returns r2 _ => r1 = r2
  | Aborts m1 _, Aborts m2 _ => m1 = m2
  | Undefined, Undefined => True
  | _, _ => False
  end.
Proof.
  intros Htls Hglob Hhdr.
  rewrite (my_catch_closed_form s1), (my_catch_closed_form s2).
  rewrite <- Htls in Hglob |- *. rewrite <- Hglob.
  destruct (tls_globals s1 =? nullptr); [split; reflexivity |].
  destruct (memory s1 !! tls_globals s1) as [[g | T w | u] |];
    try (split; reflexivity).
  specialize (Hhdr g eq_refl). cbv zeta.
  destruct (caughtExceptions g =? nullptr); [split; reflexivity |].
  unfold header_at, base_at. rewrite <- Hhdr.
  destruct (header_at a (memory s1) (header_of_caught a (caughtExceptions g)))
    as [u |] eqn:Hu; unfold header_at in Hu; rewrite Hu; [| split; reflexivity].
  destruct (negb (exception_class u =? my_exception_class)); [split; reflexivity |].
  destruct (base_at a (memory s1) (header_of_caught a (caughtExceptions g)))
    as [be |] eqn:Hb; unfold base_at in Hb; rewrite Hb; split; reflexivity.
Qed.

End CatchMore.

(** * Further properties of the raise side and of the cleanup routine *)

Section RaiseMore.

Context {P : Payloads}.
Variable a : abi.
Variable rt : runtime.


(** X6.  Allocation and cleanup cancel.  When [new] gave [my_throw<T>] a fresh
    address [p], the cleanup routine that [my_throw<T>] installed, called on
    the header it raised, leaves memory exactly as it was before the throw;
    the two lines "Throwing p" and "Deleting p" are all that remains. *)
Theorem my_throw_then_cleanup_restores_memory
    (T : ptype) (args : ctor_args T) (reason : _Unwind_Reason_Code) (s : state) (p : addr) :
  memory s !! p = None ->
  exists w : wrapped_exception T,
    wrapped_at T (memory (prepared T args p s)) p = Some w /\
    exception_cleanup (header (base w)) = fn_my_throw_cleanup T /\
    my_throw_cleanup T reason (address_of_header a T p) (prepared T args p s) =
      (Returns tt
         {| memory := memory s;
            tls_globals := tls_globals s;
            stdout := stdout s ++ [Throwing p; Deleting p] |},
       [Free p]).
Proof.
  intros Hfresh.
  exists (with_cleanup (fn_my_throw_cleanup T) (wrapped_exception_ctor T args)).
  split; [apply wrapped_at_lookup, prepared_lookup |]. split; [reflexivity |].
  rewrite address_of_header_eq.
  unfold my_throw_cleanup, bind, printf, delete_wrapped_exception. simpl.
  rewrite (wrapped_at_lookup T _ _ p (lookup_insert_eq _ _ _)).
  simpl. rewrite (delete_insert_id _ _ _ Hfresh).
  unfold set_memory, add_stdout, prepared. simpl. rewrite <- app_assoc. reflexivity.
Qed.

(** X7.  The cleanup routine of [my_throw<T>] completes exactly when an envelope
    of type [T] is stored at the address it is given; once it has completed,
    a second call on the same address finds nothing to delete. *)
Theorem cleanup_frees_only_its_own_envelope
    (T : ptype) (r1 r2 : _Unwind_Reason_Code) (exc : addr) (s : state) :
  ((exists s' t, my_throw_cleanup T r1 exc s = (Returns tt s', t)) <->
   is_Some (wrapped_at T (memory s) exc)) /\
  (forall s' t,
     my_throw_cleanup T r1 exc s = (Returns tt s', t) ->
     memory s' !! exc = None /\
     (forall q : addr, q <> exc -> memory s' !! q = memory s !! q) /\
     my_throw_cleanup T r2 exc s' = (Undefined, [Free exc])).
Proof.
  unfold my_throw_cleanup, bind, printf, delete_wrapped_exception. simpl.
  destruct (wrapped_at T (memory s) exc) as [w |] eqn:Hw.
  - split.
    + split; [intros _; eexists; reflexivity | intros _; eexists; eexists; reflexivity].
    + intros s' t Hrun. injection Hrun as Hs' _. subst s'. simpl.
      split; [apply lookup_delete_eq |]. split.
      * intros q Hq. apply lookup_delete_ne. congruence.
      * unfold wrapped_at. rewrite lookup_delete_eq. reflexivity.
  - split.
    + split; [intros [s' [t H]]; discriminate | intros [w H]; discriminate].
    + intros s' t Hrun. discriminate.
Qed.

(** X8.  The call that opens [main].  With the runtime's storage at a non-null
    address, [__cxa_get_globals] leaves the thread with a non-null handle and
    the output untouched; [my_throw] called afterwards passes its
    assertion, and a second call of [__cxa_get_globals] returns the same
    handle and changes nothing. *)
Theorem get_globals_enables_my_throw (T : ptype) (args : ctor_args T) (s : state) :
  eh_globals_storage rt <> nullptr ->
  exists (g : addr) (s1 : state) (t : list event),
    __cxa_get_globals rt s = (Returns g s1, t) /\
    g <> nullptr /\
    tls_globals s1 = g /\
    stdout s1 = stdout s /\
    (forall msg s', fst (my_throw a rt T args s1) <> Aborts msg s') /\
    __cxa_get_globals rt s1 = (Returns g s1, []).
Proof.
  intros Hstore. unfold __cxa_get_globals.
  destruct (Z.eqb_spec (tls_globals s) nullptr) as [Hz | Hnz].
  - eexists. eexists. eexists. split; [reflexivity |]. simpl.
    split; [exact Hstore |]. split; [reflexivity |]. split; [reflexivity |].
    split.
    + intros msg s'.
      set (s1 := {| memory := _; tls_globals := eh_globals_storage rt; stdout := stdout s |}).
      destruct (operator_new rt (memory s1)) as [p |] eqn:Hnew.
      * rewrite (my_throw_run a rt T args s1 p Hstore Hnew). simpl.
        destruct (raise_returns rt (prepared T args p s1) (address_of_header a T p));
          discriminate.
      * rewrite (my_throw_bad_alloc a rt T args s1 Hstore Hnew). discriminate.
    + apply Z.eqb_neq in Hstore. rewrite Hstore. reflexivity.
  - eexists. eexists. eexists. split; [reflexivity |].
    split; [exact Hnz |]. split; [reflexivity |]. split; [reflexivity |].
    split.
    + intros msg s'.
      destruct (operator_new rt (memory s)) as [p |] eqn:Hnew.
      * rewrite (my_throw_run a rt T args s p Hnz Hnew). simpl.
        destruct (raise_returns rt (prepared T args p s) (address_of_header a T p));
          discriminate.
      * rewrite (my_throw_bad_alloc a rt T args s Hnz Hnew). discriminate.
    + apply Z.eqb_neq in Hnz. rewrite Hnz. reflexivity.
Qed.

End RaiseMore.

(** * Further properties of handlers *)

Section HandlerRuns.

Context {P : Payloads}.
Variable a : abi.

(** The state in which a handler starts after a throw: the caught slot maps
    back to [p], where the envelope sits with its cleanup installed. *)
Lemma handler_after_throw
    (T : ptype) (args : ctor_args T) (s : state) (g : cxa_eh_globals) (p : addr) :
  sizeof_cxa_exception a = sizeof_libcxx_cxa_exception ->
  0 < sizeof_Unwind_Exception a ->
  memory s !! tls_globals s = Some (Obj_globals g) ->
  memory s !! p = None ->
  sizeof_cxa_exception a <= p ->
  exists (s2 : state) (g2 : cxa_eh_globals),
    enter_handler a (address_of_header a T p) (prepared T args p s) = Some s2 /\
    tls_globals s2 = tls_globals s /\
    stdout s2 = stdout s ++ [Throwing p] /\
    memory s2 !! tls_globals s2 = Some (Obj_globals g2) /\
    caughtExceptions g2 <> nullptr /\
    header_of_caught a (caughtExceptions g2) = p /\
    memory s2 !! p =
      Some (Obj_wrapped T (with_cleanup (fn_my_throw_cleanup T) (wrapped_exception_ctor T args))) /\
    uncaughtExceptions g2 = uncaughtExceptions g.
Proof.
  intros Habi Hsz Hlive Hfresh Hp.
  assert (Hne : p <> tls_globals s) by congruence.
  rewrite address_of_header_eq. unfold enter_handler. simpl tls_globals.
  rewrite prepared_lookup_ne by exact Hne. rewrite Hlive.
  eexists. eexists. split; [reflexivity |]. simpl.
  split; [reflexivity |]. split; [reflexivity |].
  split; [apply lookup_insert_eq |].
  split; [simpl; unfold nullptr, sizeof_libcxx_cxa_exception in *; lia |].
  split; [simpl; unfold header_of_caught, sizeof_libcxx_cxa_exception in *; lia |].
  split; [| reflexivity].
  rewrite lookup_insert_ne by congruence. apply lookup_insert_eq.
Qed.

(** The runtime's exit from a handler whose envelope carries the cleanup
    routine of [my_throw<T>]. *)
Lemma leave_handler_run
    (T : ptype) (w : wrapped_exception T) (s : state) (g : cxa_eh_globals) (p : addr) :
  memory s !! p = Some (Obj_wrapped T w) ->
  exception_cleanup (header (base w)) = fn_my_throw_cleanup T ->
  memory s !! tls_globals s = Some (Obj_globals g) ->
  leave_handler a p s =
    (Returns tt
       {| memory :=
            <[tls_globals s := Obj_globals {| caughtExceptions := nullptr;
                                              uncaughtExceptions := uncaughtExceptions g |}]>
              (delete p (memory s));
          tls_globals := tls_globals s;
          stdout := stdout s ++ [Deleting p] |},
     [Free p]).
Proof.
  intros Hp Hfn Hl.
  assert (Hne : p <> tls_globals s) by congruence.
  unfold leave_handler. rewrite (header_at_wrapped a T w _ p Hp), Hfn.
  unfold my_throw_cleanup, bind, printf, delete_wrapped_exception. simpl.
  rewrite (wrapped_at_lookup T w _ p Hp). simpl.
  rewrite lookup_delete_ne by exact Hne. rewrite Hl. reflexivity.
Qed.

End HandlerRuns.

Section MainHandler.

Variable a : abi.

(** The handler of [main] on a [test_exception] envelope of this family. *)
Lemma main_handler_run
    (s : state) (g : cxa_eh_globals) (w : wrapped_exception Demo.test_exception_T) :
  tls_globals s <> nullptr ->
  memory s !! tls_globals s = Some (Obj_globals g) ->
  caughtExceptions g <> nullptr ->
  memory s !! header_of_caught a (caughtExceptions g) =
    Some (Obj_wrapped Demo.test_exception_T w) ->
  exception_class (header (base w)) = my_exception_class ->
  ty (base w) = typeid Demo.test_exception_T ->
  Demo.main_handler a s =
    (Returns tt (add_stdout (Success (Demo.what (body w))) s),
     [Read (tls_globals s) f_caughtExceptions;
      Read (header_of_caught a (caughtExceptions g)) f_exception_class;
      Read (header_of_caught a (caughtExceptions g)) f_ty;
      Read (header_of_caught a (caughtExceptions g)) f_body]).
Proof.
  intros Hg Hl Hc Hw Hclass Hty.
  assert (Hu := header_at_wrapped a _ w _ _ Hw).
  assert (Hrun := my_catch_run a s g _ Hg Hl Hc Hu).
  rewrite Hclass, Z.eqb_refl in Hrun. cbn [negb] in Hrun.
  rewrite (base_at_wrapped a _ w _ _ Hw), Hty in Hrun.
  unfold Demo.main_handler, bind. rewrite Hrun. cbn [found ty_out caught_out negb].
  assert (Heq : type_info_eq (typeid Demo.test_exception_T) (typeid Demo.T_test_exception) = true)
    by reflexivity.
  rewrite Heq.
  rewrite offsetof_base_0, Z.sub_0_r.
  unfold load_body, printf.
  erewrite wrapped_at_lookup; [reflexivity | exact Hw].
Qed.

(** X9.  The handler of [main] passes on what is not of this family.  In a
    handler whose caught exception carries another class identifier, the
    handler body executes [throw;] with the state exactly as it found it,
    after the two loads of [my_catch]. *)
Theorem main_handler_rethrows_foreign
    (s : state) (g : cxa_eh_globals) (u : _Unwind_Exception) :
  tls_globals s <> nullptr ->
  memory s !! tls_globals s = Some (Obj_globals g) ->
  caughtExceptions g <> nullptr ->
  header_at a (memory s) (header_of_caught a (caughtExceptions g)) = Some u ->
  exception_class u <> my_exception_class ->
  Demo.main_handler a s =
    (Rethrows s,
     [Read (tls_globals s) f_caughtExceptions;
      Read (header_of_caught a (caughtExceptions g)) f_exception_class]).
Proof.
  intros Hg Hl Hc Hu Hclass.
  assert (Hrun := my_catch_run a s g u Hg Hl Hc Hu).
  apply Z.eqb_neq in Hclass. rewrite Hclass in Hrun. cbn [negb] in Hrun.
  unfold Demo.main_handler, bind. rewrite Hrun. reflexivity.
Qed.

(** The handler of [main] on an envelope whose tag it does not know. *)
Lemma main_handler_rethrows_unrecognised_run
    (s : state) (g : cxa_eh_globals)
    (T : @ptype Demo.demo_payloads) (w : wrapped_exception T) :
  tls_globals s <> nullptr ->
  memory s !! tls_globals s = Some (Obj_globals g) ->
  caughtExceptions g <> nullptr ->
  memory s !! header_of_caught a (caughtExceptions g) = Some (Obj_wrapped T w) ->
  exception_class (header (base w)) = my_exception_class ->
  type_info_eq (ty (base w)) (typeid Demo.test_exception_T) = false ->
  Demo.main_handler a s =
    (Rethrows s,
     [Read (tls_globals s) f_caughtExceptions;
      Read (header_of_caught a (caughtExceptions g)) f_exception_class;
      Read (header_of_caught a (caughtExceptions g)) f_ty]).
Proof.
  intros Hg Hl Hc Hw Hclass Hty.
  assert (Hu := header_at_wrapped a _ w _ _ Hw).
  assert (Hrun := my_catch_run a s g _ Hg Hl Hc Hu).
  rewrite Hclass, Z.eqb_refl in Hrun. cbn [negb] in Hrun.
  rewrite (base_at_wrapped a _ w _ _ Hw) in Hrun.
  unfold Demo.main_handler, bind. rewrite Hrun. cbn [found ty_out caught_out negb].
  destruct (type_info_eq (ty (base w)) _) eqn:Htag; [| reflexivity].
  discriminate Hty.
Qed.

(** X10.  The handler of [main] never frees or stores.  Whatever state it runs
    in, all its events are loads; when it completes it has added exactly one
    "Success" line and left memory and handle alone; when it rethrows or
    aborts the state is the one it started in.  The envelope stays the
    runtime's to delete. *)
Theorem main_handler_only_reads (s : state) :
  Forall is_read (snd (Demo.main_handler a s)) /\
  match fst (Demo.main_handler a s) with
  | Returns _ s' =>
      memory s' = memory s /\ tls_globals s' = tls_globals s /\
      exists msg : string, stdout s' = stdout s ++ [Success msg]
  | Rethrows s' | Aborts _ s' => s' = s
  | Undefined => True
  | Unwinds _ _ | Terminates _ | BadAlloc _ => False
  end.
Proof.
  unfold Demo.main_handler, bind. rewrite (my_catch_closed_form a s).
  assert (Hr : forall p f, is_read (Read p f)) by (intros p f; exists p, f; reflexivity).
  destruct (tls_globals s =? nullptr); [split; [constructor | reflexivity] |].
  destruct (memory s !! tls_globals s) as [[g | T w | u] |];
    try (split; [repeat constructor; apply Hr | exact I]).
  cbv zeta.
  destruct (caughtExceptions g =? nullptr);
    [split; [repeat constructor; apply Hr | reflexivity] |].
  destruct (header_at a (memory s) (header_of_caught a (caughtExceptions g))) as [u |];
    [| split; [repeat constructor; apply Hr | exact I]].
  destruct (negb (exception_class u =? my_exception_class));
    [split; [repeat constructor; apply Hr | reflexivity] |].
  destruct (base_at a (memory s) (header_of_caught a (caughtExceptions g))) as [be |];
    [| split; [repeat constructor; apply Hr | exact I]].
  cbn [found ty_out caught_out negb].
  destruct (type_info_eq (ty be) _);
    [| split; [repeat constructor; apply Hr | reflexivity]].
  unfold load_body, printf.
  destruct (wrapped_at _ (memory s) _) as [w |];
    simpl; (split; [repeat constructor; apply Hr |]).
  - split; [reflexivity |]. split; [reflexivity |]. eexists. reflexivity.
  - exact I.
Qed.

End MainHandler.

(** * Throw, handle, clean up *)

Section Cycle.

Context {P : Payloads}.
Variable a : abi.
Variable rt : runtime.

(** [try { body } catch (...) { handler }] once [body] has left through the
    unwinder and the runtime has entered the handler. *)
Lemma try_catch_all_enters {A : Type} (body handler : M A)
      (s s1 s2 : state) (h : addr) (t : list event) :
  body s = (Unwinds h s1, t) ->
  enter_handler a h s1 = Some s2 ->
  try_catch_all a body handler s =
    match handler s2 with
    | (Returns x s3, t') =>
        let (o, t'') := (leave_handler a h ;; ret x) s3 in (o, t ++ t' ++ t'')
    | (Rethrows s3, t') => (Unwinds h s3, t ++ t')
    | (o, t') => (o, t ++ t')
    end.
Proof.
  intros Hbody Henter. unfold try_catch_all. rewrite Hbody, Henter. reflexivity.
Qed.

(** X11.  An envelope that is handled is freed exactly once.  When the exception
    raised by [my_throw<T>] reaches a [catch (...)] block whose body
    completes without touching memory, the block as a whole completes; the
    only allocation is that of the envelope and the only deallocation, after
    the body's own events, frees it; memory is what it was before the throw
    (with the caught slot empty), and the last line printed is
    "Deleting p". *)
Theorem handled_envelope_is_freed_once
    (T : ptype) (args : ctor_args T) (handler : M unit)
    (s s2 s3 : state) (g : cxa_eh_globals) (p : addr) (t' : list event) :
  tls_globals s <> nullptr ->
  memory s !! tls_globals s = Some (Obj_globals g) ->
  operator_new rt (memory s) = Some p ->
  memory s !! p = None ->
  raise_returns rt (prepared T args p s) (address_of_header a T p) = None ->
  enter_handler a (address_of_header a T p) (prepared T args p s) = Some s2 ->
  handler s2 = (Returns tt s3, t') ->
  memory s3 = memory s2 ->
  tls_globals s3 = tls_globals s2 ->
  exists s4 : state,
    try_catch_all a (my_throw a rt T args) handler s =
      (Returns tt s4,
       [Alloc p; Write p f_exception_cleanup; Raise (address_of_header a T p)]
         ++ t' ++ [Free p]) /\
    memory s4 =
      <[tls_globals s := Obj_globals {| caughtExceptions := nullptr;
                                        uncaughtExceptions := uncaughtExceptions g |}]>
        (memory s) /\
    tls_globals s4 = tls_globals s /\
    stdout s4 = stdout s3 ++ [Deleting p].
Proof.
  intros Hg Hl Hnew Hfresh Hraise Henter Hh Hmem Htls.
  assert (Hne : p <> tls_globals s) by congruence.
  assert (Hthrow := my_throw_run a rt T args s p Hg Hnew). rewrite Hraise in Hthrow.
  rewrite (try_catch_all_enters _ handler s _ s2 _ _ Hthrow Henter), Hh.
  revert Henter. unfold enter_handler. simpl tls_globals.
  rewrite prepared_lookup_ne by exact Hne. rewrite Hl.
  intros Henter. injection Henter as Hs2.
  assert (Hm2 : memory s2 =
                <[tls_globals s := Obj_globals
                    {| caughtExceptions :=
                         address_of_header a T p + sizeof_Unwind_Exception a -
                         sizeof_cxa_exception a;
                       uncaughtExceptions := uncaughtExceptions g |}]>
                  (memory (prepared T args p s))) by (rewrite <- Hs2; reflexivity).
  assert (Ht2 : tls_globals s2 = tls_globals s) by (rewrite <- Hs2; reflexivity).
  rewrite address_of_header_eq in *.
  assert (Hp3 : memory s3 !! p =
                Some (Obj_wrapped T (with_cleanup (fn_my_throw_cleanup T)
                                       (wrapped_exception_ctor T args)))).
  { rewrite Hmem, Hm2, lookup_insert_ne by congruence. apply prepared_lookup. }
  assert (Hg3 : memory s3 !! tls_globals s3 =
                Some (Obj_globals
                        {| caughtExceptions :=
                             p + sizeof_Unwind_Exception a - sizeof_cxa_exception a;
                           uncaughtExceptions := uncaughtExceptions g |})).
  { rewrite Htls, Ht2, Hmem, Hm2. apply lookup_insert_eq. }
  unfold bind, ret.
  rewrite (leave_handler_run a T _ s3 _ p Hp3 eq_refl Hg3).
  eexists. split; [rewrite app_nil_r; reflexivity |]. simpl.
  split; [| split; [congruence | reflexivity]].
  rewrite Htls, Ht2, Hmem, Hm2. unfold prepared. simpl.
  apply map_eq. intros i.
  destruct (decide (i = tls_globals s)) as [-> | Hi].
  { rewrite !lookup_insert_eq. reflexivity. }
  rewrite !(lookup_insert_ne _ (tls_globals s) i) by congruence.
  destruct (decide (i = p)) as [-> | Hip].
  { rewrite lookup_delete_eq, Hfresh. reflexivity. }
  rewrite lookup_delete_ne by congruence.
  rewrite !lookup_insert_ne by congruence. reflexivity.
Qed.

End Cycle.

(** * The driver as a whole *)

Section Driver.

Variable a : abi.
Variable rt : runtime (P := Demo.demo_payloads).

(** X12.  The handler of [main] prints what was thrown.  For every message,
    [my_throw<test_exception>(msg)] followed by the [catch (...)] block of
    [main] makes the block print that very message; the block performs four
    loads, the last one of the payload, and the output so far is
    "Throwing p" and the "Success" line. *)
Theorem main_handler_prints_thrown_message
    (msg : string) (s s1 : state) (g : cxa_eh_globals) (p h : addr) :
  sizeof_cxa_exception a = sizeof_libcxx_cxa_exception ->
  0 < sizeof_Unwind_Exception a ->
  memory s !! tls_globals s = Some (Obj_globals g) ->
  operator_new rt (memory s) = Some p ->
  memory s !! p = None ->
  sizeof_cxa_exception a <= p ->
  fst (my_throw a rt Demo.test_exception_T msg s) = Unwinds h s1 ->
  exists s2 : state,
    enter_handler a h s1 = Some s2 /\
    Demo.main_handler a s2 =
      (Returns tt (add_stdout (Success msg) s2),
       [Read (tls_globals s) f_caughtExceptions;
        Read p f_exception_class; Read p f_ty; Read p f_body]) /\
    stdout (add_stdout (Success msg) s2) = stdout s ++ [Throwing p; Success msg].
Proof.
  intros Habi Hsz Hl Hnew Hfresh Hp Hthrow.
  assert (Hg : tls_globals s <> nullptr).
  { intros Hz. rewrite (my_throw_uninitialised a rt Demo.test_exception_T msg s Hz) in Hthrow. discriminate. }
  rewrite (my_throw_run a rt Demo.test_exception_T msg s p Hg Hnew) in Hthrow. simpl in Hthrow.
  destruct (raise_returns rt _ _); [discriminate |].
  injection Hthrow as Hh Hs1. subst h s1.
  destruct (handler_after_throw a Demo.test_exception_T msg s g p Habi Hsz Hl Hfresh Hp)
    as [s2 [g2 [Henter [Ht2 [Hout [Hg2 [Hc2 [Hback [Hw Hunc]]]]]]]]].
  exists s2. split; [exact Henter |].
  rewrite <- Hback in Hw.
  rewrite (main_handler_run a s2 g2 _ (eq_ind_r (fun x => x <> nullptr) Hg Ht2)
             Hg2 Hc2 Hw eq_refl eq_refl).
  rewrite Hback, Ht2. split; [reflexivity |].
  simpl. rewrite Hout, <- app_assoc. reflexivity.
Qed.

(** X13.  A payload type the handler does not know travels on, still allocated.
    When [my_throw<T>] raises a type whose tag differs from that of
    [test_exception], the [catch (...)] block of [main] ends by rethrowing:
    the same header leaves the block, no deallocation has happened, the
    envelope is still in memory, and only "Throwing p" was printed. *)
Theorem rethrown_envelope_is_not_freed
    (T : @ptype Demo.demo_payloads) (args : ctor_args T)
    (s : state) (g : cxa_eh_globals) (p : addr) :
  sizeof_cxa_exception a = sizeof_libcxx_cxa_exception ->
  0 < sizeof_Unwind_Exception a ->
  tls_globals s <> nullptr ->
  memory s !! tls_globals s = Some (Obj_globals g) ->
  operator_new rt (memory s) = Some p ->
  memory s !! p = None ->
  sizeof_cxa_exception a <= p ->
  raise_returns rt (prepared T args p s) (address_of_header a T p) = None ->
  type_info_eq (typeid T) (typeid Demo.test_exception_T) = false ->
  exists s2 : state,
    try_catch_all a (my_throw a rt T args) (Demo.main_handler a) s =
      (Unwinds (address_of_header a T p) s2,
       [Alloc p; Write p f_exception_cleanup; Raise (address_of_header a T p);
        Read (tls_globals s) f_caughtExceptions;
        Read p f_exception_class; Read p f_ty]) /\
    wrapped_at T (memory s2) p =
      Some (with_cleanup (fn_my_throw_cleanup T) (wrapped_exception_ctor T args)) /\
    stdout s2 = stdout s ++ [Throwing p].
Proof.
  intros Habi Hsz Hg Hl Hnew Hfresh Hp Hraise Htag.
  assert (Hthrow := my_throw_run a rt T args s p Hg Hnew). rewrite Hraise in Hthrow.
  destruct (handler_after_throw a T args s g p Habi Hsz Hl Hfresh Hp)
    as [s2 [g2 [Henter [Ht2 [Hout [Hg2 [Hc2 [Hback [Hw Hunc]]]]]]]]].
  exists s2.
  rewrite (try_catch_all_enters a _ (Demo.main_handler a) s _ s2 _ _ Hthrow Henter).
  assert (Hw' := Hw). rewrite <- Hback in Hw'.
  rewrite (main_handler_rethrows_unrecognised_run a s2 g2 T _
             (eq_ind_r (fun x => x <> nullptr) Hg Ht2) Hg2 Hc2 Hw' eq_refl Htag).
  rewrite Hback, Ht2. split; [reflexivity |].
  split; [apply wrapped_at_lookup; exact Hw | exact Hout].
Qed.

(** The first statement of [main], run from process start. *)
Lemma main_initialises :
  __cxa_get_globals rt Demo.process_start =
    (Returns (eh_globals_storage rt) (fresh_thread (eh_globals_storage rt)),
     [Alloc (eh_globals_storage rt)]).
Proof. reflexivity. Qed.

(** X14.  [main] returns 0, prints three lines and leaks nothing.  On a platform
    with the record size the source assumes, with any runtime that places
    the bookkeeping record at a non-null address, hands [new] an address
    elsewhere and finds the handler, [main] run from process start returns
    0; its output is "Throwing p", the message, "Deleting p"; its events are
    the two allocations, the store of the cleanup pointer, the raise, the
    four loads of the handler and the deallocation of the envelope; and
    memory at the end holds the empty bookkeeping record and nothing else. *)
Theorem main_returns_zero (p : addr) :
  sizeof_cxa_exception a = sizeof_libcxx_cxa_exception ->
  0 < sizeof_Unwind_Exception a ->
  eh_globals_storage rt <> nullptr ->
  operator_new rt (memory (fresh_thread (eh_globals_storage rt))) = Some p ->
  p <> eh_globals_storage rt ->
  sizeof_cxa_exception a <= p ->
  raise_returns rt
    (prepared Demo.test_exception_T "You caught me!"%string p
              (fresh_thread (eh_globals_storage rt)))
    (address_of_header a Demo.test_exception_T p) = None ->
  Demo.main a rt Demo.process_start =
    (Returns 0
       {| memory := memory (fresh_thread (eh_globals_storage rt));
          tls_globals := eh_globals_storage rt;
          stdout := [Throwing p; Success "You caught me!"; Deleting p] |},
     [Alloc (eh_globals_storage rt); Alloc p; Write p f_exception_cleanup;
      Raise (address_of_header a Demo.test_exception_T p);
      Read (eh_globals_storage rt) f_caughtExceptions;
      Read p f_exception_class; Read p f_ty; Read p f_body; Free p]).
Proof.
  intros Habi Hsz Hstore Hnew Hne Hp Hraise.
  assert (Hl0 : memory (fresh_thread (eh_globals_storage rt)) !!
                  tls_globals (fresh_thread (eh_globals_storage rt)) =
                Some (Obj_globals {| caughtExceptions := nullptr; uncaughtExceptions := 0 |}))
    by apply lookup_insert_eq.
  assert (Hfresh : memory (fresh_thread (eh_globals_storage rt)) !! p = None).
  { unfold fresh_thread. simpl. rewrite lookup_insert_ne by congruence.
    apply lookup_empty. }
  assert (Hthrow := my_throw_run a rt Demo.test_exception_T "You caught me!"%string
                      (fresh_thread (eh_globals_storage rt)) p Hstore Hnew).
  rewrite Hraise in Hthrow.
  destruct (handler_after_throw a Demo.test_exception_T "You caught me!"%string
              (fresh_thread (eh_globals_storage rt)) _ p Habi Hsz Hl0 Hfresh Hp)
    as [s2 [g2 [Henter [Ht2 [Hout [Hg2 [Hc2 [Hback [Hw Hunc]]]]]]]]].
  assert (Hw' := Hw). rewrite <- Hback in Hw'.
  assert (Hhandler := main_handler_run a s2 g2 _
            (eq_ind_r (fun x => x <> nullptr) Hstore Ht2) Hg2 Hc2 Hw' eq_refl eq_refl).
  rewrite Hback, Ht2 in Hhandler.
  assert (Htry := try_catch_all_enters a _ (Demo.main_handler a)
                      (fresh_thread (eh_globals_storage rt)) _ s2 _ _ Hthrow Henter).
  rewrite Hhandler in Htry.
  assert (Hleave := leave_handler_run a Demo.test_exception_T _
            (add_stdout (Success "You caught me!") s2) g2 p Hw eq_refl Hg2).
  rewrite address_of_header_eq in *.
  change (Success (Demo.what _)) with (Success "You caught me!") in Htry.
  unfold bind at 1 in Htry. rewrite Hleave in Htry. cbn [ret] in Htry.
  unfold Demo.main, bind. rewrite main_initialises, Htry. unfold ret. simpl.
  f_equal. f_equal. rewrite Ht2, Hout. f_equal.
  revert Henter. unfold enter_handler. simpl tls_globals.
  rewrite prepared_lookup_ne by congruence.
  change (memory (fresh_thread (eh_globals_storage rt)) !! eh_globals_storage rt)
    with (memory (fresh_thread (eh_globals_storage rt)) !!
            tls_globals (fresh_thread (eh_globals_storage rt))).
  rewrite Hl0.
  intros Henter. injection Henter as Hs2. rewrite <- Hs2. simpl.
  apply map_eq. intros i.
  destruct (decide (i = eh_globals_storage rt)) as [-> | Hi].
  { rewrite !lookup_insert_eq, Hunc. reflexivity. }
  rewrite !(lookup_insert_ne _ (eh_globals_storage rt) i) by congruence.
  destruct (decide (i = p)) as [-> | Hip].
  { rewrite lookup_delete_eq, lookup_empty. reflexivity. }
  rewrite lookup_delete_ne by congruence.
  rewrite !lookup_insert_ne by congruence. reflexivity.
Qed.

(** X15.  When the raise primitive comes back, [main] ends in [std::terminate()].
    Whatever code the unwinder returns, the handler never runs: the output
    is "Throwing p" and the diagnostic with that code, the events stop at the
    raise, and the envelope is still allocated when the process ends. *)
Theorem main_terminates_when_raise_fails (p : addr) (code : _Unwind_Reason_Code) :
  eh_globals_storage rt <> nullptr ->
  operator_new rt (memory (fresh_thread (eh_globals_storage rt))) = Some p ->
  raise_returns rt
    (prepared Demo.test_exception_T "You caught me!"%string p
              (fresh_thread (eh_globals_storage rt)))
    (address_of_header a Demo.test_exception_T p) = Some code ->
  exists s' : state,
    Demo.main a rt Demo.process_start =
      (Terminates s',
       [Alloc (eh_globals_storage rt); Alloc p; Write p f_exception_cleanup;
        Raise (address_of_header a Demo.test_exception_T p)]) /\
    stdout s' = [Throwing p; Failed_to_throw (reason_value code)] /\
    is_Some (wrapped_at Demo.test_exception_T (memory s') p).
Proof.
  intros Hstore Hnew Hraise.
  assert (Hthrow := my_throw_run a rt Demo.test_exception_T "You caught me!"%string
                      (fresh_thread (eh_globals_storage rt)) p Hstore Hnew).
  rewrite Hraise in Hthrow.
  eexists. split.
  - unfold Demo.main, bind. rewrite main_initialises.
    unfold try_catch_all. rewrite Hthrow. reflexivity.
  - split; [reflexivity |]. simpl.
    eexists. apply wrapped_at_lookup, lookup_insert_eq.
Qed.

End Driver.

(** ** The further properties on the demonstration driver *)

Lemma my_catch_out_parameters_witness :
  exists (g : cxa_eh_globals) (u : _Unwind_Exception),
    memory Demo.handling !! tls_globals Demo.handling = Some (Obj_globals g) /\
    header_at itanium_x86_64 (memory Demo.handling)
      (header_of_caught itanium_x86_64 (caughtExceptions g)) = Some u /\
    exception_class u = my_exception_class.
Proof.
  destruct (my_catch_out_parameters itanium_x86_64 Demo.handling Demo.handling
              {| found := true; ty_out := Some (typeid Demo.test_exception_T);
                 caught_out := Some 0x2000 |}
              [Read 0x1000 f_caughtExceptions; Read 0x2000 f_exception_class;
               Read 0x2000 f_ty]
              eq_refl)
    as [g [u [Hl [Hu [Hiff _]]]]].
  exists g, u. split; [exact Hl |]. split; [exact Hu |].
  apply Hiff. reflexivity.
Defined.

Lemma my_catch_class_collision_witness :
  my_catch itanium_x86_64 Demo.handling_collision =
    (Undefined,
     [Read 0x1000 f_caughtExceptions; Read 0x3000 f_exception_class; Read 0x3000 f_ty]).
Proof.
  apply (my_catch_class_collision itanium_x86_64 Demo.handling_collision
           {| caughtExceptions := 0x2FA0; uncaughtExceptions := 0 |}
           {| exception_class := my_exception_class;
              exception_cleanup := fn_foreign 0x400100;
              private_1 := 0; private_2 := 0 |}).
  - vm_compute. discriminate.
  - reflexivity.
  - vm_compute. discriminate.
  - reflexivity.
  - reflexivity.
Defined.

Lemma my_catch_needs_matching_record_size_witness :
  exists g2 : cxa_eh_globals,
    memory Demo.handling !! tls_globals Demo.handling = Some (Obj_globals g2) /\
    (header_of_caught itanium_x86_64 (caughtExceptions g2) = 0x2000 <->
     sizeof_cxa_exception itanium_x86_64 = sizeof_libcxx_cxa_exception).
Proof.
  apply (my_catch_needs_matching_record_size itanium_x86_64 0x2000
           (prepared Demo.test_exception_T "You caught me!"%string 0x2000 Demo.initialised)
           Demo.handling).
  reflexivity.
Defined.

Lemma my_catch_locality_witness :
  snd (my_catch itanium_x86_64 Demo.handling) =
    snd (my_catch itanium_x86_64 (add_stdout (Success "noise") Demo.handling)) /\
  match fst (my_catch itanium_x86_64 Demo.handling),
        fst (my_catch itanium_x86_64 (add_stdout (Success "noise") Demo.handling)) with
  | Returns r1 _, Returns r2 _ => r1 = r2
  | Aborts m1 _, Aborts m2 _ => m1 = m2
  | Undefined, Undefined => True
  | _, _ => False
  end.
Proof.
  apply (my_catch_locality itanium_x86_64 Demo.handling
           (add_stdout (Success "noise") Demo.handling)).
  - reflexivity.
  - reflexivity.
  - intros g _. reflexivity.
Defined.


Lemma my_throw_then_cleanup_restores_memory_witness :
  my_throw_cleanup Demo.test_exception_T _URC_FOREIGN_EXCEPTION_CAUGHT
    (address_of_header itanium_x86_64 Demo.test_exception_T 0x2000)
    (prepared Demo.test_exception_T "You caught me!"%string 0x2000 Demo.initialised) =
    (Returns tt
       {| memory := memory Demo.initialised;
          tls_globals := tls_globals Demo.initialised;
          stdout := stdout Demo.initialised ++ [Throwing 0x2000; Deleting 0x2000] |},
     [Free 0x2000]).
Proof.
  destruct (my_throw_then_cleanup_restores_memory itanium_x86_64 Demo.test_exception_T
              "You caught me!"%string _URC_FOREIGN_EXCEPTION_CAUGHT Demo.initialised 0x2000)
    as [w [_ [_ H]]].
  - reflexivity.
  - exact H.
Defined.

Lemma cleanup_frees_only_its_own_envelope_witness :
  my_throw_cleanup Demo.test_exception_T _URC_FATAL_PHASE1_ERROR 0x2000
    {| memory := delete 0x2000 (memory Demo.handling);
       tls_globals := 0x1000;
       stdout := [Throwing 0x2000; Deleting 0x2000] |} =
    (Undefined, [Free 0x2000]).
Proof.
  apply (proj2 (cleanup_frees_only_its_own_envelope Demo.test_exception_T
                  _URC_FOREIGN_EXCEPTION_CAUGHT _URC_FATAL_PHASE1_ERROR 0x2000 Demo.handling)
               {| memory := delete 0x2000 (memory Demo.handling);
                  tls_globals := 0x1000;
                  stdout := [Throwing 0x2000; Deleting 0x2000] |}
               [Free 0x2000]).
  reflexivity.
Defined.

Lemma get_globals_enables_my_throw_witness :
  exists (g : addr) (s1 : state) (t : list event),
    __cxa_get_globals Demo.propagating Demo.process_start = (Returns g s1, t) /\
    g <> nullptr /\
    tls_globals s1 = g /\
    stdout s1 = stdout Demo.process_start /\
    (forall msg s',
       fst (my_throw itanium_x86_64 Demo.propagating Demo.test_exception_T
              "You caught me!"%string s1) <> Aborts msg s') /\
    __cxa_get_globals Demo.propagating s1 = (Returns g s1, []).
Proof.
  apply (get_globals_enables_my_throw itanium_x86_64 Demo.propagating
           Demo.test_exception_T "You caught me!"%string Demo.process_start).
  vm_compute. discriminate.
Defined.

Lemma main_handler_rethrows_foreign_witness :
  Demo.main_handler itanium_x86_64 Demo.handling_foreign =
    (Rethrows Demo.handling_foreign,
     [Read 0x1000 f_caughtExceptions; Read 0x3000 f_exception_class]).
Proof.
  apply (main_handler_rethrows_foreign itanium_x86_64 Demo.handling_foreign
           {| caughtExceptions := 0x2FA0; uncaughtExceptions := 0 |}
           {| exception_class := 0x434C4E47432B2B00;
              exception_cleanup := fn_foreign 0x400100;
              private_1 := 0; private_2 := 0 |}).
  - vm_compute. discriminate.
  - reflexivity.
  - vm_compute. discriminate.
  - reflexivity.
  - vm_compute. discriminate.
Defined.

Lemma handled_envelope_is_freed_once_witness :
  exists s4 : state,
    try_catch_all itanium_x86_64
      (my_throw itanium_x86_64 Demo.propagating Demo.test_exception_T "You caught me!"%string)
      (Demo.main_handler itanium_x86_64) Demo.initialised =
      (Returns tt s4,
       [Alloc 0x2000; Write 0x2000 f_exception_cleanup;
        Raise (address_of_header itanium_x86_64 Demo.test_exception_T 0x2000)]
         ++ [Read 0x1000 f_caughtExceptions; Read 0x2000 f_exception_class;
             Read 0x2000 f_ty; Read 0x2000 f_body]
         ++ [Free 0x2000]) /\
    memory s4 =
      <[tls_globals Demo.initialised :=
          Obj_globals {| caughtExceptions := nullptr; uncaughtExceptions := 0 |}]>
        (memory Demo.initialised) /\
    tls_globals s4 = tls_globals Demo.initialised /\
    stdout s4 =
      stdout (add_stdout (Success "You caught me!") Demo.handling) ++ [Deleting 0x2000].
Proof.
  apply (handled_envelope_is_freed_once itanium_x86_64 Demo.propagating
           Demo.test_exception_T "You caught me!"%string
           (Demo.main_handler itanium_x86_64)
           Demo.initialised Demo.handling
           (add_stdout (Success "You caught me!") Demo.handling)
           {| caughtExceptions := nullptr; uncaughtExceptions := 0 |} 0x2000
           [Read 0x1000 f_caughtExceptions; Read 0x2000 f_exception_class;
            Read 0x2000 f_ty; Read 0x2000 f_body]).
  - vm_compute. discriminate.
  - reflexivity.
  - reflexivity.
  - reflexivity.
  - reflexivity.
  - reflexivity.
  - reflexivity.
  - reflexivity.
  - reflexivity.
Defined.

Lemma main_handler_prints_thrown_message_witness :
  exists s2 : state,
    enter_handler itanium_x86_64 0x2000
      (prepared Demo.test_exception_T "Disk full"%string 0x2000 Demo.initialised) = Some s2 /\
    Demo.main_handler itanium_x86_64 s2 =
      (Returns tt (add_stdout (Success "Disk full") s2),
       [Read (tls_globals Demo.initialised) f_caughtExceptions;
        Read 0x2000 f_exception_class; Read 0x2000 f_ty; Read 0x2000 f_body]) /\
    stdout (add_stdout (Success "Disk full") s2) =
      stdout Demo.initialised ++ [Throwing 0x2000; Success "Disk full"].
Proof.
  apply (main_handler_prints_thrown_message itanium_x86_64 Demo.propagating
           "Disk full"%string Demo.initialised
           (prepared Demo.test_exception_T "Disk full"%string 0x2000 Demo.initialised)
           {| caughtExceptions := nullptr; uncaughtExceptions := 0 |} 0x2000 0x2000).
  - reflexivity.
  - reflexivity.
  - reflexivity.
  - reflexivity.
  - reflexivity.
  - vm_compute. discriminate.
  - reflexivity.
Defined.

Lemma rethrown_envelope_is_not_freed_witness :
  exists s2 : state,
    try_catch_all itanium_x86_64
      (my_throw itanium_x86_64 Demo.propagating Demo.int_T 7)
      (Demo.main_handler itanium_x86_64) Demo.initialised =
      (Unwinds (address_of_header itanium_x86_64 Demo.int_T 0x2000) s2,
       [Alloc 0x2000; Write 0x2000 f_exception_cleanup;
        Raise (address_of_header itanium_x86_64 Demo.int_T 0x2000);
        Read (tls_globals Demo.initialised) f_caughtExceptions;
        Read 0x2000 f_exception_class; Read 0x2000 f_ty]) /\
    wrapped_at Demo.int_T (memory s2) 0x2000 =
      Some (with_cleanup (fn_my_throw_cleanup Demo.int_T)
              (wrapped_exception_ctor Demo.int_T 7)) /\
    stdout s2 = stdout Demo.initialised ++ [Throwing 0x2000].
Proof.
  apply (rethrown_envelope_is_not_freed itanium_x86_64 Demo.propagating
           Demo.int_T 7 Demo.initialised
           {| caughtExceptions := nullptr; uncaughtExceptions := 0 |} 0x2000).
  - reflexivity.
  - reflexivity.
  - vm_compute. discriminate.
  - reflexivity.
  - reflexivity.
  - reflexivity.
  - vm_compute. discriminate.
  - reflexivity.
  - reflexivity.
Defined.

Lemma main_returns_zero_witness :
  Demo.main itanium_x86_64 Demo.propagating Demo.process_start =
    (Returns 0
       {| memory := memory (fresh_thread 0x1000);
          tls_globals := 0x1000;
          stdout := [Throwing 0x2000; Success "You caught me!"; Deleting 0x2000] |},
     [Alloc 0x1000; Alloc 0x2000; Write 0x2000 f_exception_cleanup;
      Raise (address_of_header itanium_x86_64 Demo.test_exception_T 0x2000);
      Read 0x1000 f_caughtExceptions;
      Read 0x2000 f_exception_class; Read 0x2000 f_ty; Read 0x2000 f_body;
      Free 0x2000]).
Proof.
  apply (main_returns_zero itanium_x86_64 Demo.propagating 0x2000).
  - reflexivity.
  - reflexivity.
  - vm_compute. discriminate.
  - reflexivity.
  - vm_compute. discriminate.
  - vm_compute. discriminate.
  - reflexivity.
Defined.

Lemma main_terminates_when_raise_fails_witness :
  exists s' : state,
    Demo.main itanium_x86_64 (Demo.failing _URC_END_OF_STACK) Demo.process_start =
      (Terminates s',
       [Alloc 0x1000; Alloc 0x2000; Write 0x2000 f_exception_cleanup;
        Raise (address_of_header itanium_x86_64 Demo.test_exception_T 0x2000)]) /\
    stdout s' = [Throwing 0x2000; Failed_to_throw (reason_value _URC_END_OF_STACK)] /\
    is_Some (wrapped_at Demo.test_exception_T (memory s') 0x2000).
Proof.
  apply (main_terminates_when_raise_fails itanium_x86_64 (Demo.failing _URC_END_OF_STACK)
           0x2000 _URC_END_OF_STACK).
  - vm_compute. discriminate.
  - reflexivity.
  - reflexivity.
Defined.
